(** * The guided OAuth flow of the inspector: [oauth-state-machine.ts]

    A shallow embedding of [client/src/lib/oauth-state-machine.ts]: the
    transition table [oauthTransitions] (one guard [canTransition] and one
    action [execute] per [OAuthStep]) and the driver
    [OAuthStateMachine.executeStep].

    The actions [await] network calls of the SDK, read and write the
    session-backed provider and call [updateState] with partial states.
    They are embedded in a small state-and-exception monad whose state
    holds the provider's storage, the list of patches handed to
    [updateState] and the list of SDK calls made so far. *)

From stdpp Require Import base option list countable gmap.
From Stdlib Require Import NArith String Ascii.

Local Open Scope N_scope.

(** ** JavaScript strings *)

(** A JavaScript string is a sequence of 16-bit code units. *)
Abbreviation jsstring := (list N).

Definition js (s : string) : jsstring :=
  map N_of_ascii (list_ascii_of_string s).

(** [WhiteSpace] and [LineTerminator] of ECMAScript, the code points that
    [String.prototype.trim] strips. They all lie in the basic plane. *)
Definition isWhiteSpace (c : N) : bool :=
  (c =? 0x0009) || (c =? 0x000B) || (c =? 0x000C) || (c =? 0xFEFF)
  || (c =? 0x0020) || (c =? 0x00A0) || (c =? 0x1680)
  || ((0x2000 <=? c) && (c <=? 0x200A))
  || (c =? 0x202F) || (c =? 0x205F) || (c =? 0x3000).

Definition isLineTerminator (c : N) : bool :=
  (c =? 0x000A) || (c =? 0x000D) || (c =? 0x2028) || (c =? 0x2029).

Definition isTrimmed (c : N) : bool := isWhiteSpace c || isLineTerminator c.

Fixpoint trimStart (s : jsstring) : jsstring :=
  match s with
  | c :: s' => if isTrimmed c then trimStart s' else s
  | [] => []
  end.

Definition trimEnd (s : jsstring) : jsstring := rev (trimStart (rev s)).

(** [s.trim()] *)
Definition trim (s : jsstring) : jsstring := trimEnd (trimStart s).

(** [a.join(sep)] on an array of strings. *)
Fixpoint join (sep : jsstring) (a : list jsstring) : jsstring :=
  match a with
  | [] => []
  | [x] => x
  | x :: a' => x ++ sep ++ join sep a'
  end.

(** Truthiness of a value of type [string | null | undefined]: only a
    string with at least one code unit is truthy. *)
Definition truthy_string (o : option jsstring) : bool :=
  match o with
  | Some (_ :: _) => true
  | _ => false
  end.

(** Truthiness of a nullable object or array: every object is truthy. *)
Definition truthy {A} (o : option A) : bool :=
  match o with Some _ => true | None => false end.

(** ** Errors and thrown values *)

Record Error := mkError { name : jsstring; message : jsstring }.

(** [new Error(msg)] *)
Definition new_Error (msg : jsstring) : Error :=
  {| name := js "Error"; message := msg |}.

(** A [throw] carries any value: an [Error] (or an instance of a subclass),
    or something that is not an [Error], kept as what [String(e)] makes of
    it. *)
Inductive Thrown :=
| ThrownError (e : Error)
| ThrownOther (String_e : jsstring).

(** ** The steps *)

Inductive OAuthStep :=
| metadata_discovery
| client_registration
| authorization_redirect
| authorization_code
| token_request
| complete.

#[global] Instance OAuthStep_eq_dec : EqDecision OAuthStep.
Proof. solve_decision. Defined.

(** The step as the string the union type spells. *)
Definition step_name (s : OAuthStep) : jsstring :=
  match s with
  | metadata_discovery => js "metadata_discovery"
  | client_registration => js "client_registration"
  | authorization_redirect => js "authorization_redirect"
  | authorization_code => js "authorization_code"
  | token_request => js "token_request"
  | complete => js "complete"
  end.

(** Position of a step in the order of the table. *)
Definition step_index (s : OAuthStep) : nat :=
  match s with
  | metadata_discovery => 0
  | client_registration => 1
  | authorization_redirect => 2
  | authorization_code => 3
  | token_request => 4
  | complete => 5
  end.

(** The step that follows in the order of the table; [complete] has none. *)
Definition next_step (s : OAuthStep) : option OAuthStep :=
  match s with
  | metadata_discovery => Some client_registration
  | client_registration => Some authorization_redirect
  | authorization_redirect => Some authorization_code
  | authorization_code => Some token_request
  | token_request => Some complete
  | complete => None
  end.

(** ** What the SDK and the platform own *)

(** The objects of [@modelcontextprotocol/sdk] and of the platform that the
    state machine only passes around are kept abstract: [URL] objects, the
    registered client, the token set, and the fields of the metadata
    documents that the machine never looks at. *)
Class SdkTypes := {
  URL : Type;
  OAuthClientInformationFull : Type;
  OAuthTokens : Type;
  ResourceMetadataRest : Type;
  OAuthMetadataRest : Type;
  ClientMetadataRest : Type;
}.

Section Model.
Context `{SdkTypes}.

(** [OAuthProtectedResourceMetadata]: the two fields the machine reads. *)
Record OAuthProtectedResourceMetadata := {
  rm_authorization_servers : option (list jsstring);
  rm_scopes_supported : option (list jsstring);
  rm_rest : ResourceMetadataRest;
}.

(** [OAuthMetadata]: the field the machine reads. *)
Record OAuthMetadata := {
  md_scopes_supported : option (list jsstring);
  md_rest : OAuthMetadataRest;
}.

(** [OAuthClientMetadata], the payload of a registration request. *)
Record OAuthClientMetadata := {
  cm_scope : option jsstring;
  cm_rest : ClientMetadataRest;
}.

Record StatusMessage := { sm_type : jsstring; sm_message : jsstring }.

(** Modelled from the spec: [AuthDebuggerState], declared in
    [auth-types.ts]. The fields are those of the spec's data model, under
    the names the transition table and the tests use ([oauthStep] is the
    spec's [step]), with [isInitiatingAuth] as the tests have it. A
    nullable field is an [option]; [authorizationCode] is an [option] as
    well, since the action tests it for absence. *)
Record AuthDebuggerState := {
  isInitiatingAuth : bool;
  oauthTokens : option OAuthTokens;
  oauthStep : OAuthStep;
  resourceMetadata : option OAuthProtectedResourceMetadata;
  resourceMetadataError : option Error;
  authServerUrl : option URL;
  oauthMetadata : option OAuthMetadata;
  oauthClientInfo : option OAuthClientInformationFull;
  authorizationUrl : option jsstring;
  authorizationCode : option jsstring;
  latestError : option Error;
  statusMessage : option StatusMessage;
  validationError : option jsstring;
}.

(** [Partial<AuthDebuggerState>]: every key may be missing ([None]); a key
    that is there carries a value of the field's type. *)
Record Patch := {
  p_isInitiatingAuth : option bool;
  p_oauthTokens : option (option OAuthTokens);
  p_oauthStep : option OAuthStep;
  p_resourceMetadata : option (option OAuthProtectedResourceMetadata);
  p_resourceMetadataError : option (option Error);
  p_authServerUrl : option (option URL);
  p_oauthMetadata : option (option OAuthMetadata);
  p_oauthClientInfo : option (option OAuthClientInformationFull);
  p_authorizationUrl : option (option jsstring);
  p_authorizationCode : option (option jsstring);
  p_latestError : option (option Error);
  p_statusMessage : option (option StatusMessage);
  p_validationError : option (option jsstring);
}.

(** Modelled from the spec: the [updateState] callback is the caller's;
    the spec has it merge a patch by a plain field-wise overwrite
    ([{...state, ...updates}]). *)
Definition applyPatch (s : AuthDebuggerState) (p : Patch) : AuthDebuggerState :=
  {| isInitiatingAuth := default (isInitiatingAuth s) (p_isInitiatingAuth p);
     oauthTokens := default (oauthTokens s) (p_oauthTokens p);
     oauthStep := default (oauthStep s) (p_oauthStep p);
     resourceMetadata := default (resourceMetadata s) (p_resourceMetadata p);
     resourceMetadataError :=
       default (resourceMetadataError s) (p_resourceMetadataError p);
     authServerUrl := default (authServerUrl s) (p_authServerUrl p);
     oauthMetadata := default (oauthMetadata s) (p_oauthMetadata p);
     oauthClientInfo := default (oauthClientInfo s) (p_oauthClientInfo p);
     authorizationUrl := default (authorizationUrl s) (p_authorizationUrl p);
     authorizationCode := default (authorizationCode s) (p_authorizationCode p);
     latestError := default (latestError s) (p_latestError p);
     statusMessage := default (statusMessage s) (p_statusMessage p);
     validationError := default (validationError s) (p_validationError p) |}.

Definition applyPatches (s : AuthDebuggerState) (ps : list Patch)
  : AuthDebuggerState := foldl applyPatch s ps.

(** ** The persistent auth store *)

(** Modelled from the spec: what [DebugInspectorOAuthClientProvider] of
    [auth.ts] keeps. Per target server it saves and loads the server
    metadata, the client information, the PKCE code verifier and the
    tokens. *)
Record Persisted := {
  serverMetadata : option OAuthMetadata;
  clientInfo : option OAuthClientInformationFull;
  verifier : option jsstring;
  tokens : option OAuthTokens;
}.

Definition nothing_persisted : Persisted :=
  {| serverMetadata := None; clientInfo := None; verifier := None;
     tokens := None |}.

(** The storage behind all providers, keyed by server URL. *)
Definition entry (σ : gmap jsstring Persisted) (serverUrl : jsstring)
  : Persisted := default nothing_persisted (σ !! serverUrl).

(** ** Effects *)

(** How a call ends: with a value, or by throwing (a rejected promise is a
    throw at its [await]). *)
Inductive Completion (A : Type) :=
| Normal (a : A)
| Throw (t : Thrown).
#[global] Arguments Normal {A} a.
#[global] Arguments Throw {A} t.

(** A call into the SDK, with its arguments. *)
Inductive Call :=
| discoverOAuthProtectedResourceMetadata_call (serverUrl : jsstring)
| discoverOAuthMetadata_call (authServerUrl : URL)
| parseAsync_call (metadata : OAuthMetadata)
| registerClient_call (serverUrl : jsstring)
    (metadata : option OAuthMetadata) (clientMetadata : OAuthClientMetadata)
| startAuthorization_call (serverUrl : jsstring)
    (metadata : OAuthMetadata)
    (clientInformation : option OAuthClientInformationFull)
    (redirectUrl : jsstring) (scope : option jsstring)
| exchangeAuthorization_call (serverUrl : jsstring)
    (metadata : option OAuthMetadata)
    (clientInformation : option OAuthClientInformationFull)
    (authorizationCode : option jsstring) (codeVerifier : jsstring)
    (redirectUri : jsstring).

(** What an execution can change: the session storage behind the provider,
    the patches handed to [updateState] (oldest first) and the SDK calls
    made (oldest first). *)
Record World := {
  storage : gmap jsstring Persisted;
  updates : list Patch;
  calls : list Call;
}.

Definition M (A : Type) : Type := World -> World * Completion A.

Definition ret {A} (a : A) : M A := fun w => (w, Normal a).

Definition bind {A B} (m : M A) (k : A -> M B) : M B :=
  fun w =>
    match m w with
    | (w', Normal a) => k a w'
    | (w', Throw t) => (w', Throw t)
    end.

(** [throw t] *)
Definition throw {A} (t : Thrown) : M A := fun w => (w, Throw t).

(** [try { m } catch (e) { ... }], as the completion of [m] handed to what
    follows. *)
Definition attempt {A} (m : M A) : M (Completion A) :=
  fun w => let '(w', c) := m w in (w', Normal c).

Definition lift {A} (c : Completion A) : M A := fun w => (w, c).

(** [context.updateState(updates)] *)
Definition updateState (p : Patch) : M unit :=
  fun w =>
    ({| storage := storage w; updates := updates w ++ [p];
        calls := calls w |}, Normal tt).

Definition record_call (c : Call) : M unit :=
  fun w =>
    ({| storage := storage w; updates := updates w;
        calls := calls w ++ [c] |}, Normal tt).

Definition read_storage : M (gmap jsstring Persisted) :=
  fun w => (w, Normal (storage w)).

Definition write_storage (σ : gmap jsstring Persisted) : M unit :=
  fun w =>
    ({| storage := σ; updates := updates w; calls := calls w |}, Normal tt).

End Model.

Declare Scope js_scope.
Delimit Scope js_scope with js.
Notation "'let*' x ':=' m 'in' k" := (bind m (fun x => k))
  (at level 10, x pattern, m at level 100, k at level 200) : js_scope.
Notation "m ';;' k" := (bind m (fun _ => k))
  (at level 100, k at level 200, right associativity) : js_scope.
Local Open Scope js_scope.

(** ** The environment of the machine *)

(** Everything the machine calls and does not define: the [URL]
    constructor and [toString], the five functions imported from
    [sdk/client/auth.js], [OAuthMetadataSchema.parseAsync], and the
    provider's getters [redirectUrl] and [clientMetadata]. A network call
    answers with a value or rejects; one execution of a step makes each
    call at most once, so a function of the arguments describes every
    behaviour. [codeVerifier_missing] is what [provider.codeVerifier()]
    does when no verifier was saved (give a value back, or throw), which
    the spec leaves open. *)
Record Environment `{SdkTypes} := {
  new_URL : jsstring -> Completion URL;
  URL_toString : URL -> jsstring;
  discoverOAuthProtectedResourceMetadata :
    jsstring -> Completion (option OAuthProtectedResourceMetadata);
  discoverOAuthMetadata : URL -> Completion (option OAuthMetadata);
  parseAsync : OAuthMetadata -> Completion OAuthMetadata;
  registerClient :
    jsstring -> option OAuthMetadata -> OAuthClientMetadata ->
    Completion OAuthClientInformationFull;
  startAuthorization :
    jsstring -> OAuthMetadata -> option OAuthClientInformationFull ->
    jsstring -> option jsstring -> Completion (URL * jsstring);
  exchangeAuthorization :
    jsstring -> option OAuthMetadata -> option OAuthClientInformationFull ->
    option jsstring -> jsstring -> jsstring -> Completion OAuthTokens;
  redirectUrl : jsstring;
  clientMetadata : OAuthClientMetadata;
  codeVerifier_missing : Completion jsstring;
}.

Section Machine.
Context `{SdkTypes} (env : Environment).

(** An [await]ed call into the SDK: noted, then completed as the
    environment says. *)
Definition sdk {A} (c : Call) (r : Completion A) : M A :=
  record_call c;; lift r.

(** The [TypeError] of reading a property of [null]. *)
Definition TypeError_null (property : string) : Thrown :=
  ThrownError
    {| name := js "TypeError";
       message := js "Cannot read properties of null (reading '"
                  ++ js property ++ js "')" |}.

(** *** The provider, [new DebugInspectorOAuthClientProvider(serverUrl)] *)

(** Modelled from the spec: the save and load operations of the
    provider, each on the entry of the server the provider was made for.
    A save replaces one component of the entry; a load gives the
    component back, [None] standing for nothing saved. *)
Definition saveServerMetadata (serverUrl : jsstring) (md : OAuthMetadata)
  : M unit :=
  let* σ := read_storage in
  let e := entry σ serverUrl in
  write_storage
    (<[serverUrl := {| serverMetadata := Some md; clientInfo := clientInfo e;
                       verifier := verifier e; tokens := tokens e |}]> σ).

Definition getServerMetadata (serverUrl : jsstring) : M (option OAuthMetadata) :=
  let* σ := read_storage in ret (serverMetadata (entry σ serverUrl)).

Definition saveClientInformation (serverUrl : jsstring)
  (ci : OAuthClientInformationFull) : M unit :=
  let* σ := read_storage in
  let e := entry σ serverUrl in
  write_storage
    (<[serverUrl := {| serverMetadata := serverMetadata e;
                       clientInfo := Some ci;
                       verifier := verifier e; tokens := tokens e |}]> σ).

Definition clientInformation (serverUrl : jsstring)
  : M (option OAuthClientInformationFull) :=
  let* σ := read_storage in ret (clientInfo (entry σ serverUrl)).

Definition saveCodeVerifier (serverUrl : jsstring) (v : jsstring) : M unit :=
  let* σ := read_storage in
  let e := entry σ serverUrl in
  write_storage
    (<[serverUrl := {| serverMetadata := serverMetadata e;
                       clientInfo := clientInfo e;
                       verifier := Some v; tokens := tokens e |}]> σ).

Definition codeVerifier (serverUrl : jsstring) : M jsstring :=
  let* σ := read_storage in
  match verifier (entry σ serverUrl) with
  | Some v => ret v
  | None => lift (codeVerifier_missing env)
  end.

Definition saveTokens (serverUrl : jsstring) (t : OAuthTokens) : M unit :=
  let* σ := read_storage in
  let e := entry σ serverUrl in
  write_storage
    (<[serverUrl := {| serverMetadata := serverMetadata e;
                       clientInfo := clientInfo e;
                       verifier := verifier e; tokens := Some t |}]> σ).

(** *** The transition table *)

(** [StateMachineContext]; the provider is the storage at [serverUrl] and
    [updateState] is the monad's. *)
Record StateMachineContext := {
  state : AuthDebuggerState;
  serverUrl : jsstring;
}.

Record StateTransition := {
  canTransition : StateMachineContext -> M bool;
  execute : StateMachineContext -> M unit;
}.

(** [catch (e)] of [metadata_discovery]: an [Error] is kept, anything else
    becomes [new Error(String(e))]. *)
Definition caught (t : Thrown) : Error :=
  match t with
  | ThrownError e => e
  | ThrownOther s => new_Error s
  end.

(** The [try]/[catch] of [metadata_discovery]. It yields the three locals
    [resourceMetadata], [resourceMetadataError] and [authServerUrl] as they
    stand after it; [own] is [new URL(context.serverUrl)]. *)
Definition resolve_auth_server (context : StateMachineContext) (own : URL)
  : M (option OAuthProtectedResourceMetadata * option Error * URL) :=
  let* r :=
    attempt
      (sdk (discoverOAuthProtectedResourceMetadata_call (serverUrl context))
         (discoverOAuthProtectedResourceMetadata env (serverUrl context))) in
  match r with
  | Throw e => ret (None, Some (caught e), own)
  | Normal resourceMetadata =>
      match resourceMetadata ≫= rm_authorization_servers with
      | Some (first :: _) =>
          match new_URL env first with
          | Normal u => ret (resourceMetadata, None, u)
          | Throw e => ret (resourceMetadata, Some (caught e), own)
          end
      | _ => ret (resourceMetadata, None, own)
      end
  end.

Definition metadata_discovery_execute (context : StateMachineContext)
  : M unit :=
  let* own := lift (new_URL env (serverUrl context)) in
  let* (resourceMetadata, resourceMetadataError, authServerUrl) :=
    resolve_auth_server context own in
  let* metadata :=
    sdk (discoverOAuthMetadata_call authServerUrl)
      (discoverOAuthMetadata env authServerUrl) in
  match metadata with
  | None => throw (ThrownError (new_Error (js "Failed to discover OAuth metadata")))
  | Some metadata =>
      let* parsedMetadata :=
        sdk (parseAsync_call metadata) (parseAsync env metadata) in
      saveServerMetadata (serverUrl context) parsedMetadata;;
      updateState
        {| p_isInitiatingAuth := None; p_oauthTokens := None;
           p_oauthStep := Some client_registration;
           p_resourceMetadata := Some resourceMetadata;
           p_resourceMetadataError := Some resourceMetadataError;
           p_authServerUrl := Some (Some authServerUrl);
           p_oauthMetadata := Some (Some parsedMetadata);
           p_oauthClientInfo := None; p_authorizationUrl := None;
           p_authorizationCode := None; p_latestError := None;
           p_statusMessage := None; p_validationError := None |}
  end.

(** [context.state.resourceMetadata?.scopes_supported ||
     metadata.scopes_supported]: an array, even an empty one, is truthy, so
    the right operand is read only when the left one is undefined; reading
    it from a [null] metadata throws. *)
Definition scopesSupported (context : StateMachineContext)
  : M (option (list jsstring)) :=
  match resourceMetadata (state context) ≫= rm_scopes_supported with
  | Some scopes => ret (Some scopes)
  | None =>
      match oauthMetadata (state context) with
      | Some metadata => ret (md_scopes_supported metadata)
      | None => throw (TypeError_null "scopes_supported")
      end
  end.

(** [clientMetadata.scope = scopesSupported.join(" ")] under
    [if (scopesSupported)]. *)
Definition with_scope (cm : OAuthClientMetadata)
  (scopes : option (list jsstring)) : OAuthClientMetadata :=
  match scopes with
  | Some l => {| cm_scope := Some (join (js " ") l); cm_rest := cm_rest cm |}
  | None => cm
  end.

Definition client_registration_execute (context : StateMachineContext)
  : M unit :=
  let metadata := oauthMetadata (state context) in
  let* scopes := scopesSupported context in
  let clientMetadata := with_scope (clientMetadata env) scopes in
  let* fullInformation :=
    sdk (registerClient_call (serverUrl context) metadata clientMetadata)
      (registerClient env (serverUrl context) metadata clientMetadata) in
  saveClientInformation (serverUrl context) fullInformation;;
  updateState
    {| p_isInitiatingAuth := None; p_oauthTokens := None;
       p_oauthStep := Some authorization_redirect;
       p_resourceMetadata := None; p_resourceMetadataError := None;
       p_authServerUrl := None; p_oauthMetadata := None;
       p_oauthClientInfo := Some (Some fullInformation);
       p_authorizationUrl := None; p_authorizationCode := None;
       p_latestError := None; p_statusMessage := None;
       p_validationError := None |}.

Definition authorization_redirect_execute (context : StateMachineContext)
  : M unit :=
  match oauthMetadata (state context) with
  | None => throw (TypeError_null "scopes_supported")
  | Some metadata =>
      let clientInformation := oauthClientInfo (state context) in
      let scope := join (js " ") <$> md_scopes_supported metadata in
      let* (authorizationUrl, codeVerifier) :=
        sdk (startAuthorization_call (serverUrl context) metadata
               clientInformation (redirectUrl env) scope)
          (startAuthorization env (serverUrl context) metadata
             clientInformation (redirectUrl env) scope) in
      saveCodeVerifier (serverUrl context) codeVerifier;;
      updateState
        {| p_isInitiatingAuth := None; p_oauthTokens := None;
           p_oauthStep := Some authorization_code;
           p_resourceMetadata := None; p_resourceMetadataError := None;
           p_authServerUrl := None; p_oauthMetadata := None;
           p_oauthClientInfo := None;
           p_authorizationUrl := Some (Some (URL_toString env authorizationUrl));
           p_authorizationCode := None; p_latestError := None;
           p_statusMessage := None; p_validationError := None |}
  end.

(** [!context.state.authorizationCode ||
     context.state.authorizationCode.trim() === ""] *)
Definition code_missing (code : option jsstring) : bool :=
  negb (truthy_string code)
  || match code with
     | Some c => bool_decide (trim c = [])
     | None => false
     end.

Definition authorization_code_execute (context : StateMachineContext)
  : M unit :=
  if code_missing (authorizationCode (state context)) then
    updateState
      {| p_isInitiatingAuth := None; p_oauthTokens := None;
         p_oauthStep := None;
         p_resourceMetadata := None; p_resourceMetadataError := None;
         p_authServerUrl := None; p_oauthMetadata := None;
         p_oauthClientInfo := None; p_authorizationUrl := None;
         p_authorizationCode := None; p_latestError := None;
         p_statusMessage := None;
         p_validationError :=
           Some (Some (js "You need to provide an authorization code")) |};;
    throw (ThrownError (new_Error (js "Authorization code required")))
  else
    updateState
      {| p_isInitiatingAuth := None; p_oauthTokens := None;
         p_oauthStep := Some token_request;
         p_resourceMetadata := None; p_resourceMetadataError := None;
         p_authServerUrl := None; p_oauthMetadata := None;
         p_oauthClientInfo := None; p_authorizationUrl := None;
         p_authorizationCode := None; p_latestError := None;
         p_statusMessage := None; p_validationError := Some None |}.

Definition token_request_canTransition (context : StateMachineContext)
  : M bool :=
  if truthy_string (authorizationCode (state context)) then
    let* metadata := getServerMetadata (serverUrl context) in
    if truthy metadata then
      let* clientInformation := clientInformation (serverUrl context) in
      ret (truthy clientInformation)
    else ret false
  else ret false.

Definition token_request_execute (context : StateMachineContext) : M unit :=
  let* codeVerifier := codeVerifier (serverUrl context) in
  let* metadata := getServerMetadata (serverUrl context) in
  let* clientInformation := clientInformation (serverUrl context) in
  let* tokens :=
    sdk (exchangeAuthorization_call (serverUrl context) metadata
           clientInformation (authorizationCode (state context)) codeVerifier
           (redirectUrl env))
      (exchangeAuthorization env (serverUrl context) metadata
         clientInformation (authorizationCode (state context)) codeVerifier
         (redirectUrl env)) in
  saveTokens (serverUrl context) tokens;;
  updateState
    {| p_isInitiatingAuth := None; p_oauthTokens := Some (Some tokens);
       p_oauthStep := Some complete;
       p_resourceMetadata := None; p_resourceMetadataError := None;
       p_authServerUrl := None; p_oauthMetadata := None;
       p_oauthClientInfo := None; p_authorizationUrl := None;
       p_authorizationCode := None; p_latestError := None;
       p_statusMessage := None; p_validationError := None |}.

Definition oauthTransitions (step : OAuthStep) : StateTransition :=
  match step with
  | metadata_discovery =>
      {| canTransition := fun _ => ret true;
         execute := metadata_discovery_execute |}
  | client_registration =>
      {| canTransition := fun context =>
           ret (truthy (oauthMetadata (state context)));
         execute := client_registration_execute |}
  | authorization_redirect =>
      {| canTransition := fun context =>
           ret (truthy (oauthMetadata (state context))
                && truthy (oauthClientInfo (state context)));
         execute := authorization_redirect_execute |}
  | authorization_code =>
      {| canTransition := fun _ => ret true;
         execute := authorization_code_execute |}
  | token_request =>
      {| canTransition := token_request_canTransition;
         execute := token_request_execute |}
  | complete =>
      {| canTransition := fun _ => ret false;
         execute := fun _ => ret tt |}
  end.

(** *** The driver *)

(** [new OAuthStateMachine(serverUrl, updateState).executeStep(state)] *)
Definition executeStep (serverUrl : jsstring) (state : AuthDebuggerState)
  : M unit :=
  let context := {| state := state; serverUrl := serverUrl |} in
  let transition := oauthTransitions (oauthStep state) in
  let* ok := canTransition transition context in
  if negb ok then
    throw (ThrownError
             (new_Error (js "Cannot transition from "
                         ++ step_name (oauthStep state))))
  else execute transition context.

End Machine.

(** ** A concrete environment: the fixtures of the test-suite *)

(** The mocks of [AuthDebugger.test.tsx], over the simplest carriers: a
    [URL] is its text, a registered client is its [client_id], a token set
    is its [access_token]. *)
Module Fixtures.

#[local] Instance types : SdkTypes := {
  URL := jsstring;
  OAuthClientInformationFull := jsstring;
  OAuthTokens := jsstring;
  ResourceMetadataRest := unit;
  OAuthMetadataRest := unit;
  ClientMetadataRest := unit;
}.

(** [defaultProps.serverUrl] *)
Definition target : jsstring := js "https://example.com".

Definition mockOAuthMetadata : OAuthMetadata :=
  {| md_scopes_supported := None; md_rest := tt |}.

Definition metadataWithScopes : OAuthMetadata :=
  {| md_scopes_supported := Some [js "read"; js "write"; js "admin"];
     md_rest := tt |}.

Definition mockOAuthClientInfo : jsstring := js "test_client_id".

Definition mockOAuthTokens : jsstring := js "test_access_token".

(** [mockDiscoverOAuthProtectedResourceMetadata.mockRejectedValue(...)] *)
Definition no_resource_metadata
  : Completion (option OAuthProtectedResourceMetadata) :=
  Throw (ThrownError (new_Error (js "No protected resource metadata found"))).

(** The environment the tests set up in [beforeEach], with the answer of
    the resource-metadata discovery and of the authorization-server
    discovery left to each test. *)
Definition mock_env
  (resource : Completion (option OAuthProtectedResourceMetadata))
  (metadata : OAuthMetadata) : Environment :=
  {| new_URL := fun s =>
       match s with
       | [] => Throw (ThrownError {| name := js "TypeError";
                                      message := js "Invalid URL" |})
       | _ => Normal s
       end;
     URL_toString := fun u => u;
     discoverOAuthProtectedResourceMetadata := fun _ => resource;
     discoverOAuthMetadata := fun _ => Normal (Some metadata);
     parseAsync := fun m => Normal m;
     registerClient := fun _ _ _ => Normal mockOAuthClientInfo;
     startAuthorization := fun _ _ _ _ scope =>
       Normal (js "https://oauth.example.com/authorize"
                 ++ match scope with
                    | Some s => js "?scope=" ++ s
                    | None => []
                    end,
               js "test_verifier");
     exchangeAuthorization := fun _ _ _ _ _ _ => Normal mockOAuthTokens;
     redirectUrl := js "http://localhost:3000/oauth/callback/debug";
     clientMetadata := {| cm_scope := None; cm_rest := tt |};
     codeVerifier_missing :=
       Throw (ThrownError (new_Error (js "No code verifier saved for session")));
  |}.

(** [EMPTY_DEBUGGER_STATE], as the "Clear OAuth State" test spells it. *)
Definition EMPTY_DEBUGGER_STATE : AuthDebuggerState :=
  {| isInitiatingAuth := false; oauthTokens := None;
     oauthStep := metadata_discovery; resourceMetadata := None;
     resourceMetadataError := None; authServerUrl := None;
     oauthMetadata := None; oauthClientInfo := None;
     authorizationUrl := None; authorizationCode := Some [];
     latestError := None; statusMessage := None; validationError := None |}.

(** [{ ...EMPTY_DEBUGGER_STATE, oauthStep, authorizationCode }] *)
Definition at_step (step : OAuthStep) (code : string) : AuthDebuggerState :=
  applyPatch EMPTY_DEBUGGER_STATE
    {| p_isInitiatingAuth := None; p_oauthTokens := None;
       p_oauthStep := Some step;
       p_resourceMetadata := None; p_resourceMetadataError := None;
       p_authServerUrl := None; p_oauthMetadata := None;
       p_oauthClientInfo := None; p_authorizationUrl := None;
       p_authorizationCode := Some (Some (js code)); p_latestError := None;
       p_statusMessage := None; p_validationError := None |}.

(** [{ ...state, oauthMetadata, oauthClientInfo }] *)
Definition in_memory (metadata : option OAuthMetadata)
  (client : option jsstring) (s : AuthDebuggerState) : AuthDebuggerState :=
  applyPatch s
    {| p_isInitiatingAuth := None; p_oauthTokens := None;
       p_oauthStep := None;
       p_resourceMetadata := None; p_resourceMetadataError := None;
       p_authServerUrl := None; p_oauthMetadata := Some metadata;
       p_oauthClientInfo := Some client; p_authorizationUrl := None;
       p_authorizationCode := None; p_latestError := None;
       p_statusMessage := None; p_validationError := None |}.

(** A fresh page: nothing in the session storage, no call made yet. *)
Definition fresh : World := {| storage := ∅; updates := []; calls := [] |}.

(** The page after the redirect back: the session storage holds what the
    first three steps saved for the server. *)
Definition returned : World :=
  {| storage :=
       {[ target :=
            {| serverMetadata := Some mockOAuthMetadata;
               clientInfo := Some mockOAuthClientInfo;
               verifier := Some (js "test_verifier");
               tokens := None |} ]};
     updates := []; calls := [] |}.

(** The environment of [beforeEach]: no resource metadata, the plain
    authorization-server metadata. *)
Definition beforeEach : Environment :=
  mock_env no_resource_metadata mockOAuthMetadata.

(** A resource-metadata document that names no authorization server. *)
Definition resource_without_servers : OAuthProtectedResourceMetadata :=
  {| rm_authorization_servers := Some [];
     rm_scopes_supported := Some [js "mcp"; js "offline_access"];
     rm_rest := tt |}.

(** The state rebuilt after the redirect back, with the code typed in;
    the in-memory copies of the metadata and of the client are gone. *)
Definition after_reload : AuthDebuggerState :=
  at_step token_request "test_code".

(** The state at [token_request], nothing lost, with three spaces typed
    in as the code. *)
Definition three_spaces : AuthDebuggerState :=
  in_memory (Some mockOAuthMetadata) (Some mockOAuthClientInfo)
    (at_step token_request "   ").

(** The state at [authorization_redirect] of the scope tests. *)
Definition before_redirect : AuthDebuggerState :=
  in_memory (Some metadataWithScopes) (Some mockOAuthClientInfo)
    (at_step authorization_redirect "").

(** The state at [client_registration], the metadata listing scopes. *)
Definition before_registration : AuthDebuggerState :=
  in_memory (Some metadataWithScopes) None (at_step client_registration "").

(** [mockResourceMetadata] of the resource-metadata test. *)
Definition mockResourceMetadata : OAuthProtectedResourceMetadata :=
  {| rm_authorization_servers := Some [js "https://custom-auth.example.com"];
     rm_scopes_supported := None;
     rm_rest := tt |}.

(** The first run of the guided flow, on a fresh page. *)
Definition discovery_run : World * Completion unit :=
  executeStep beforeEach target EMPTY_DEBUGGER_STATE fresh.

(** "Continue" pressed at [authorization_code] with three spaces typed
    in. *)
Definition blank_code_run : World * Completion unit :=
  executeStep beforeEach target (at_step authorization_code "   ") returned.

(** The environment of the resource-metadata tests, the document naming
    no server. *)
Definition with_resource : Environment :=
  mock_env (Normal (Some resource_without_servers)) mockOAuthMetadata.


(** One press on "Continue": the driver runs on the current state, the
    caller merges the patches it was handed. *)
Definition press_continue (page : AuthDebuggerState * World)
  : AuthDebuggerState * World :=
  let r := executeStep beforeEach target page.1
             {| storage := storage page.2; updates := [];
                calls := calls page.2 |} in
  (applyPatches page.1 (updates r.1), r.1).

(** The operator types the code in. *)
Definition type_code (code : string) (page : AuthDebuggerState * World)
  : AuthDebuggerState * World :=
  (applyPatch page.1
     {| p_isInitiatingAuth := None; p_oauthTokens := None;
        p_oauthStep := None;
        p_resourceMetadata := None; p_resourceMetadataError := None;
        p_authServerUrl := None; p_oauthMetadata := None;
        p_oauthClientInfo := None; p_authorizationUrl := None;
        p_authorizationCode := Some (Some (js code)); p_latestError := None;
        p_statusMessage := None; p_validationError := None |},
   page.2).

(** A second server, with a registration of its own in the store. *)
Definition other : jsstring := js "https://other.example.com".

Definition shared : World :=
  {| storage :=
       <[other := {| serverMetadata := Some metadataWithScopes;
                     clientInfo := Some (js "other_client_id");
                     verifier := None; tokens := None |}]>
         (storage returned);
     updates := []; calls := [] |}.

(** [mockDiscoverOAuthMetadata] finding nothing. *)
Definition nothing_found : Environment :=
  {| new_URL := new_URL beforeEach;
     URL_toString := URL_toString beforeEach;
     discoverOAuthProtectedResourceMetadata :=
       discoverOAuthProtectedResourceMetadata beforeEach;
     discoverOAuthMetadata := fun _ => Normal None;
     parseAsync := parseAsync beforeEach;
     registerClient := registerClient beforeEach;
     startAuthorization := startAuthorization beforeEach;
     exchangeAuthorization := exchangeAuthorization beforeEach;
     redirectUrl := redirectUrl beforeEach;
     clientMetadata := clientMetadata beforeEach;
     codeVerifier_missing := codeVerifier_missing beforeEach |}.

(** A resource-metadata document whose first server is not a URL. *)
Definition resource_with_bad_server : OAuthProtectedResourceMetadata :=
  {| rm_authorization_servers :=
       Some [[]; js "https://custom-auth.example.com"];
     rm_scopes_supported := None;
     rm_rest := tt |}.

(** The store after the first two steps only: no verifier yet. *)
Definition no_verifier : World :=
  {| storage :=
       {[ target :=
            {| serverMetadata := Some mockOAuthMetadata;
               clientInfo := Some mockOAuthClientInfo;
               verifier := None;
               tokens := None |} ]};
     updates := []; calls := [] |}.

(** The guided flow up to the redirect, run after run. *)
Definition registration_run : World * Completion unit :=
  executeStep beforeEach target before_registration discovery_run.1.

Definition redirect_run : World * Completion unit :=
  executeStep beforeEach target before_redirect registration_run.1.

(** The patch of [discovery_run]. *)
Definition discovery_patch : Patch :=
  {| p_isInitiatingAuth := None; p_oauthTokens := None;
     p_oauthStep := Some client_registration;
     p_resourceMetadata := Some None;
     p_resourceMetadataError :=
       Some (Some (new_Error (js "No protected resource metadata found")));
     p_authServerUrl := Some (Some target);
     p_oauthMetadata := Some (Some mockOAuthMetadata);
     p_oauthClientInfo := None; p_authorizationUrl := None;
     p_authorizationCode := None; p_latestError := None;
     p_statusMessage := None; p_validationError := None |}.

(** [url.origin] on the text of an [http] or [https] URL that carries
    no credentials: the scheme, [://], and the host with its port, that
    is all that comes before the path, the query and the fragment. Any
    other text has the opaque origin, which reads [null]. *)
Fixpoint upto (stop : N -> bool) (s : jsstring) : jsstring :=
  match s with
  | c :: s' => if stop c then [] else c :: upto stop s'
  | [] => []
  end.

Fixpoint from (stop : N -> bool) (s : jsstring) : jsstring :=
  match s with
  | c :: s' => if stop c then s else from stop s'
  | [] => []
  end.

Definition origin (href : jsstring) : jsstring :=
  let colon c := (c =? 0x3A)%N in
  let slash c := (c =? 0x2F)%N in
  let ends_host c := ((c =? 0x2F) || (c =? 0x3F) || (c =? 0x23))%N in
  match from colon href with
  | _ :: c1 :: c2 :: rest =>
      if slash c1 && slash c2
      then upto colon href ++ js "://" ++ upto ends_host rest
      else js "null"
  | _ => js "null"
  end.

(** A target as the README sets it, with a path. *)
Definition sse_target : jsstring := js "http://localhost:8787/sse".

(** The resource-metadata discovery rejecting with a value that is not
    an [Error]. *)
Definition rejected_with_text : Environment :=
  mock_env (Throw (ThrownOther (js "offline"))) mockOAuthMetadata.

(** The server that [mockResourceMetadata] names, as a [URL]. *)
Definition named_server : URL := js "https://custom-auth.example.com".

(** Authorization-server metadata everywhere but at the server that
    [mockResourceMetadata] names. *)
Definition named_server_silent : Environment :=
  {| new_URL := new_URL beforeEach;
     URL_toString := URL_toString beforeEach;
     discoverOAuthProtectedResourceMetadata :=
       fun _ => Normal (Some mockResourceMetadata);
     discoverOAuthMetadata := fun server =>
       if bool_decide (server = js "https://custom-auth.example.com")
       then Normal None
       else Normal (Some mockOAuthMetadata);
     parseAsync := parseAsync beforeEach;
     registerClient := registerClient beforeEach;
     startAuthorization := startAuthorization beforeEach;
     exchangeAuthorization := exchangeAuthorization beforeEach;
     redirectUrl := redirectUrl beforeEach;
     clientMetadata := clientMetadata beforeEach;
     codeVerifier_missing := codeVerifier_missing beforeEach |}.

End Fixtures.

(** ** The spec's words *)

Section Words.
Context `{SdkTypes}.

(** "Absent or blank after trimming": no code at all, the empty string, or
    a string made of white space only. *)
Definition blank (code : option jsstring) : bool :=
  match code with
  | None => true
  | Some c => forallb isTrimmed c
  end.

(** "Prefer the resource metadata's supported-scopes list over the
    authorization-server metadata's, join with a single space; merge into
    the outgoing client-metadata payload's scope field": the scope of the
    payload, [payload] being the scope it had before. *)
Definition registration_scope
  (resource : option OAuthProtectedResourceMetadata)
  (metadata : OAuthMetadata) (payload : option jsstring) : option jsstring :=
  match resource with
  | Some {| rm_scopes_supported := Some scopes |} =>
      Some (join (js " ") scopes)
  | _ =>
      match md_scopes_supported metadata with
      | Some scopes => Some (join (js " ") scopes)
      | None => payload
      end
  end.

(** The error of a rejected precondition. *)
Definition illegal_transition (step : OAuthStep) : Thrown :=
  ThrownError (new_Error (js "Cannot transition from " ++ step_name step)).

(** An environment that differs from [env] in one thing: the code verifier
    that [startAuthorization] hands back is [v], whatever [env] made up. *)
Definition with_codeVerifier (env : Environment) (v : jsstring)
  : Environment :=
  {| new_URL := new_URL env;
     URL_toString := URL_toString env;
     discoverOAuthProtectedResourceMetadata :=
       discoverOAuthProtectedResourceMetadata env;
     discoverOAuthMetadata := discoverOAuthMetadata env;
     parseAsync := parseAsync env;
     registerClient := registerClient env;
     startAuthorization := fun serverUrl metadata client redirect scope =>
       match startAuthorization env serverUrl metadata client redirect scope with
       | Normal (authorizationUrl, _) => Normal (authorizationUrl, v)
       | Throw t => Throw t
       end;
     exchangeAuthorization := exchangeAuthorization env;
     redirectUrl := redirectUrl env;
     clientMetadata := clientMetadata env;
     codeVerifier_missing := codeVerifier_missing env |}.

(** A world that differs from [w] in one thing: the code verifier saved
    for [serverUrl] is [v]. *)
Definition with_saved_verifier (serverUrl : jsstring) (v : jsstring)
  (w : World) : World :=
  let e := entry (storage w) serverUrl in
  {| storage :=
       <[serverUrl := {| serverMetadata := serverMetadata e;
                         clientInfo := clientInfo e;
                         verifier := Some v; tokens := tokens e |}]>
         (storage w);
     updates := updates w;
     calls := calls w |}.

(** What a run shows to the debugger state and to the caller: the patches
    and the completion. *)
Definition observable (r : World * Completion unit)
  : list Patch * Completion unit := (updates r.1, r.2).

End Words.

#[global] Arguments js : simpl never.
#[global] Arguments step_name : simpl never.

(** ** The functions of the SDK *)

Section Calls.
Context `{SdkTypes}.

(** The functions the machine imports from the SDK. *)
Inductive SdkFunction :=
| discoverOAuthProtectedResourceMetadata_fn
| discoverOAuthMetadata_fn
| parseAsync_fn
| registerClient_fn
| startAuthorization_fn
| exchangeAuthorization_fn.

(** The function a call went to. *)
Definition callee (c : Call) : SdkFunction :=
  match c with
  | discoverOAuthProtectedResourceMetadata_call _ =>
      discoverOAuthProtectedResourceMetadata_fn
  | discoverOAuthMetadata_call _ => discoverOAuthMetadata_fn
  | parseAsync_call _ => parseAsync_fn
  | registerClient_call _ _ _ => registerClient_fn
  | startAuthorization_call _ _ _ _ _ => startAuthorization_fn
  | exchangeAuthorization_call _ _ _ _ _ _ => exchangeAuthorization_fn
  end.

(** The SDK functions an action goes through, in the order of its
    [await]s. *)
Definition script (step : OAuthStep) : list SdkFunction :=
  match step with
  | metadata_discovery =>
      [discoverOAuthProtectedResourceMetadata_fn; discoverOAuthMetadata_fn;
       parseAsync_fn]
  | client_registration => [registerClient_fn]
  | authorization_redirect => [startAuthorization_fn]
  | token_request => [exchangeAuthorization_fn]
  | authorization_code | complete => []
  end.

(** The keys of a patch that no action writes: the operator's code and
    the feedback fields. *)
Definition leaves_operator_fields (p : Patch) : Prop :=
  p_authorizationCode p = None /\ p_latestError p = None
  /\ p_statusMessage p = None /\ p_isInitiatingAuth p = None.

(** A patch that sets none of the artifacts of the flow to [null]. *)
Definition clears_nothing (p : Patch) : Prop :=
  p_oauthMetadata p <> Some None /\ p_oauthClientInfo p <> Some None
  /\ p_oauthTokens p <> Some None /\ p_authorizationUrl p <> Some None
  /\ p_authServerUrl p <> Some None.

End Calls.

(** ** Tool results: [ToolResults.tsx] *)

(** The checks that [ToolResults] runs on the result of a tool call
    before it renders it: [checkContentCompatibility], and the two
    verdicts [validationResult] and [compatibilityResult] that the
    component computes. The rendering itself is not modelled. *)
Module ToolResults.
Section Checks.

(** [unknown]: the values [JSON] works on. *)
Context {JsValue : Type}.

(** [JSON.parse] throws on a text that is not JSON; [JSON.stringify]
    gives a string or [undefined], or throws. *)
Context (JSON_parse : jsstring -> Completion JsValue)
        (JSON_stringify : JsValue -> Completion (option jsstring)).

(** [hasOutputSchema] and [validateToolOutput] of [utils/schemaUtils]. *)
Record ValidationResult := { isValid : bool; error : option jsstring }.
Context (hasOutputSchema : jsstring -> bool)
        (validateToolOutput : jsstring -> JsValue -> ValidationResult).

(** An item of [content]: its [type] and, if it has one, its [text]. *)
Record ContentBlock := { type : jsstring; text : option jsstring }.

Record Compatibility := { isCompatible : bool; message : jsstring }.

(** The body of the [try]: [JSON.stringify(JSON.parse(textContent)) ===
    JSON.stringify(structuredContent)], left to right. *)
Definition isEqual (structuredContent : JsValue) (textContent : jsstring)
  : Completion bool :=
  match JSON_parse textContent with
  | Throw t => Throw t
  | Normal parsedContent =>
      match JSON_stringify parsedContent with
      | Throw t => Throw t
      | Normal parsed =>
          match JSON_stringify structuredContent with
          | Throw t => Throw t
          | Normal structured => Normal (bool_decide (parsed = structured))
          end
      end
  end.

Definition checkContentCompatibility (structuredContent : JsValue)
  (unstructuredContent : list ContentBlock) : Compatibility :=
  match unstructuredContent with
  | [block] =>
      if bool_decide (type block = js "text") then
        match text block with
        | Some (c :: s) =>
            match isEqual structuredContent (c :: s) with
            | Normal true =>
                {| isCompatible := true;
                   message :=
                     js "Unstructured content matches structured content" |}
            | Normal false =>
                {| isCompatible := false;
                   message :=
                     js "Parsed JSON does not match structured content" |}
            | Throw _ =>
                {| isCompatible := false;
                   message := js "Unstructured content is not valid JSON" |}
            end
        | _ =>
            {| isCompatible := false; message := js "Text content is empty" |}
        end
      else
        {| isCompatible := false;
           message := js "Unstructured content is not a single text block" |}
  | _ =>
      {| isCompatible := false;
         message := js "Unstructured content is not a single text block" |}
  end.

(** [Tool]: the field the component reads. *)
Record Tool := { name : jsstring }.

(** [CallToolResult], as [CallToolResultSchema] has parsed it. *)
Record CallToolResult := {
  content : list ContentBlock;
  structuredContent : option JsValue;
  isError : option bool;
}.

(** [validationResult] at the end of its [if]. *)
Definition validationResult (selectedTool : option Tool)
  (structuredResult : CallToolResult) : option ValidationResult :=
  let isError := default false (isError structuredResult) in
  match selectedTool with
  | Some tool =>
      if hasOutputSchema (name tool) then
        match structuredContent structuredResult with
        | None =>
            if negb isError then
              Some {| isValid := false;
                      error := Some (js "Tool has an output schema but did not return structured content") |}
            else None
        | Some structured =>
            Some (validateToolOutput (name tool) structured)
        end
      else None
  | None => None
  end.

(** [compatibilityResult] at the end of its [if]. *)
Definition compatibilityResult (selectedTool : option Tool)
  (structuredResult : CallToolResult) : option Compatibility :=
  match structuredContent structuredResult, content structuredResult,
        selectedTool with
  | Some structured, _ :: _, Some tool =>
      if hasOutputSchema (name tool) then
        Some (checkContentCompatibility structured
                (content structuredResult))
      else None
  | _, _, _ => None
  end.

End Checks.
End ToolResults.

(** A small [JSON] for trying the checks: the values are the booleans,
    written [true] and [false]; any other text is a syntax error. *)
Module ToolFixtures.

Definition JSON_parse (s : jsstring) : Completion bool :=
  if bool_decide (s = js "true") then Normal true
  else if bool_decide (s = js "false") then Normal false
  else Throw (ThrownError {| name := js "SyntaxError";
                             message := js "Unexpected token" |}).

Definition JSON_stringify (v : bool) : Completion (option jsstring) :=
  Normal (Some (if v then js "true" else js "false")).

Definition hasOutputSchema (name : jsstring) : bool :=
  bool_decide (name = js "is_even").

Definition validateToolOutput (name : jsstring) (v : bool)
  : ToolResults.ValidationResult :=
  {| ToolResults.isValid := true; ToolResults.error := None |}.

Definition is_even : ToolResults.Tool := {| ToolResults.name := js "is_even" |}.

(** The result of a call that answers [true], as text and as structured
    content. *)
Definition answer : ToolResults.CallToolResult :=
  {| ToolResults.content :=
       [{| ToolResults.type := js "text";
           ToolResults.text := Some (js "true") |}];
     ToolResults.structuredContent := Some true;
     ToolResults.isError := None |}.

End ToolFixtures.

(** ** Tactics *)

(** Unfolding of the monad and of the table, and case analysis on what a
    run branches on. *)
Ltac unfold_monad :=
  unfold sdk, record_call, updateState, read_storage, write_storage,
    lift, attempt, throw, bind, ret in *.

Ltac unfold_provider :=
  unfold saveServerMetadata, getServerMetadata, saveClientInformation,
    clientInformation, saveCodeVerifier, codeVerifier, saveTokens in *.

Ltac unfold_table :=
  unfold metadata_discovery_execute, resolve_auth_server,
    client_registration_execute, scopesSupported,
    authorization_redirect_execute, authorization_code_execute,
    token_request_canTransition, token_request_execute in *.

Ltac innermost x :=
  lazymatch x with
  | context [match _ with _ => _ end] => fail
  | _ => idtac
  end.

Ltac split_run H :=
  repeat match type of H with
         | context [match ?x with _ => _ end] =>
             innermost x; let E := fresh "E" in destruct x eqn:E; cbn in H
         | context [if ?b then _ else _] =>
             innermost b; let E := fresh "E" in destruct b eqn:E; cbn in H
         end.

Ltac split_goal :=
  repeat match goal with
         | |- context [match ?x with _ => _ end] =>
             innermost x; destruct x eqn:?; cbn
         end.

(** * Properties *)

(** ** Trimming *)

Lemma trimStart_nil_iff (s : jsstring) :
  trimStart s = [] <-> forallb isTrimmed s = true.
Proof.
  induction s as [|c s IH]; simpl; [tauto|].
  destruct (isTrimmed c); simpl; [exact IH|].
  split; discriminate.
Qed.

Lemma trimStart_head (s : jsstring) c r :
  trimStart s = c :: r -> isTrimmed c = false.
Proof.
  induction s as [|d s IH]; simpl; [discriminate|].
  destruct (isTrimmed d) eqn:Hd; [exact IH|].
  intros [= -> _]. exact Hd.
Qed.

Lemma forallb_rev {A} (f : A -> bool) (l : list A) :
  forallb f (rev l) = forallb f l.
Proof.
  induction l as [|x l IH]; simpl; [reflexivity|].
  rewrite forallb_app, IH. simpl. rewrite andb_true_r. apply andb_comm.
Qed.

(** A string trims to the empty string exactly when all of it is white
    space. *)
Lemma trim_nil_iff (s : jsstring) :
  trim s = [] <-> forallb isTrimmed s = true.
Proof.
  unfold trim, trimEnd. split.
  - intros Ht. apply trimStart_nil_iff.
    destruct (trimStart s) as [|c r] eqn:Hs; [reflexivity|exfalso].
    apply trimStart_head in Hs.
    assert (Hr : trimStart (rev (c :: r)) = []).
    { destruct (trimStart (rev (c :: r))); [reflexivity|].
      simpl in Ht. apply app_eq_nil in Ht as [_ Ht]. discriminate. }
    apply trimStart_nil_iff in Hr. rewrite forallb_rev in Hr.
    simpl in Hr. rewrite Hs in Hr. discriminate.
  - intros Hall. apply trimStart_nil_iff in Hall. rewrite Hall. reflexivity.
Qed.

Section Properties.
Context `{SdkTypes} (env : Environment).

(** The test of [authorization_code] is the spec's "absent or blank after
    trimming". *)
Lemma code_missing_blank (code : option jsstring) :
  code_missing code = blank code.
Proof.
  destruct code as [[|c s]|]; try reflexivity.
  unfold code_missing, blank. simpl truthy_string. simpl negb.
  rewrite orb_false_l.
  destruct (forallb isTrimmed (c :: s)) eqn:Hall.
  - apply bool_decide_eq_true. apply trim_nil_iff. exact Hall.
  - apply bool_decide_eq_false. intros Ht. apply trim_nil_iff in Ht.
    congruence.
Qed.

(** ** The driver *)

(** No guard touches the world, and every guard answers. *)
Lemma canTransition_pure step context w :
  exists ok, canTransition (oauthTransitions env step) context w
             = (w, Normal ok).
Proof.
  destruct step; cbn [oauthTransitions canTransition];
    unfold_table; unfold_provider; unfold_monad; cbn; eauto.
  destruct (truthy_string _); eauto.
  destruct (truthy (serverMetadata _)); eauto.
Qed.

(** The driver runs the guard, then either rejects or runs the action. *)
Lemma executeStep_unfold url st w ok :
  canTransition (oauthTransitions env (oauthStep st))
    {| state := st; serverUrl := url |} w = (w, Normal ok) ->
  executeStep env url st w =
    if ok
    then execute (oauthTransitions env (oauthStep st))
           {| state := st; serverUrl := url |} w
    else (w, Throw (illegal_transition (oauthStep st))).
Proof.
  intros Hguard. unfold executeStep, bind. rewrite Hguard.
  destruct ok; reflexivity.
Qed.

(** C2. A step whose precondition is false is rejected: [executeStep]
    throws the error that names the step ("Cannot transition from X") and
    leaves the world as it found it, so the action did not run (no SDK
    call was made, nothing was saved) and [updateState] was not called:
    no patch exists that could change the step or any other field. *)
Theorem rejected_precondition_changes_nothing url st w :
  (canTransition (oauthTransitions env (oauthStep st))
     {| state := st; serverUrl := url |} w).2 = Normal false ->
  executeStep env url st w
  = (w, Throw (illegal_transition (oauthStep st)))
  /\ message (caught (illegal_transition (oauthStep st)))
     = js "Cannot transition from " ++ step_name (oauthStep st).
Proof.
  intros Hguard.
  destruct (canTransition_pure (oauthStep st)
              {| state := st; serverUrl := url |} w) as [ok Hok].
  rewrite Hok in Hguard. cbn in Hguard. injection Hguard as ->.
  split; [|reflexivity].
  rewrite (executeStep_unfold _ _ _ _ Hok). reflexivity.
Qed.

(** C8. [complete] is terminal: its guard answers [false] in every
    context and every world, so [executeStep] at [complete] always throws
    the illegal-transition error, and the world (hence the state) stays as
    it was. *)
Theorem complete_is_terminal url st w :
  oauthStep st = complete ->
  (forall context w0,
     canTransition (oauthTransitions env complete) context w0
     = (w0, Normal false))
  /\ executeStep env url st w = (w, Throw (illegal_transition complete)).
Proof.
  intros Hstep. split; [reflexivity|].
  unfold executeStep. rewrite Hstep. reflexivity.
Qed.

(** What each action does to the list of patches: it appends nothing or
    one patch, and a run that throws appends at most the patch of the
    validation error. *)
Lemma execute_updates step context w w' c :
  execute (oauthTransitions env step) context w = (w', c) ->
  match c with
  | Normal _ =>
      step = complete /\ updates w' = updates w
      \/ exists p, updates w' = updates w ++ [p]
                   /\ p_oauthStep p = next_step step
  | Throw _ =>
      exists ps, updates w' = updates w ++ ps
                 /\ Forall (fun p => p_oauthStep p = None) ps
  end.
Proof.
  intros Hrun.
  destruct step; cbn [oauthTransitions execute] in Hrun;
    unfold_table; unfold_provider; unfold_monad; cbn in Hrun.
  all: split_run Hrun.
  all: injection Hrun as <- <-; cbn.
  all: try (right; eexists; split; reflexivity).
  all: try (exists []; split; [symmetry; apply app_nil_r|constructor]).
  all: try (left; split; reflexivity).
  eexists [_]. split; [reflexivity|]. repeat constructor.
Qed.

(** Patches that do not carry [oauthStep] leave the step where it is. *)
Lemma applyPatches_keeps_step (st : AuthDebuggerState) (ps : list Patch) :
  Forall (fun p => p_oauthStep p = None) ps ->
  oauthStep (applyPatches st ps) = oauthStep st.
Proof.
  unfold applyPatches. revert st.
  induction ps as [|p ps IH]; intros st Hps; [reflexivity|].
  inversion Hps as [|? ? Hp Hrest]; subst. cbn [foldl].
  rewrite IH by assumption. cbn. rewrite Hp. reflexivity.
Qed.

Lemma next_step_index step next :
  next_step step = Some next -> step_index next = S (step_index step).
Proof. destruct step; intros [= <-]; reflexivity. Qed.

(** C1. Whenever [executeStep] runs the action of a step other than
    [complete] and the action succeeds, [updateState] has received exactly
    one patch, and that patch sets the step to the next one of the table
    order (one position further, neither skipping nor going back). A run
    that throws, because the precondition was rejected or because the
    action failed, has handed over no patch that carries a step: the step
    of the merged state is the one it started from. *)
Theorem step_advances_only_on_success url st w w' c :
  executeStep env url st w = (w', c) ->
  match c with
  | Normal _ =>
      oauthStep st <> complete ->
      exists p next,
        updates w' = updates w ++ [p]
        /\ next_step (oauthStep st) = Some next
        /\ p_oauthStep p = Some next
        /\ step_index next = S (step_index (oauthStep st))
        /\ oauthStep (applyPatches st [p]) = next
  | Throw _ =>
      exists ps,
        updates w' = updates w ++ ps
        /\ Forall (fun p => p_oauthStep p = None) ps
        /\ oauthStep (applyPatches st ps) = oauthStep st
  end.
Proof.
  intros Hrun.
  destruct (canTransition_pure (oauthStep st)
              {| state := st; serverUrl := url |} w) as [ok Hok].
  rewrite (executeStep_unfold _ _ _ _ Hok) in Hrun.
  destruct ok.
  - apply execute_updates in Hrun. destruct c as [[]|t].
    + intros Hnot. destruct Hrun as [[Hc _]|(p & Hup & Hp)]; [contradiction|].
      destruct (next_step (oauthStep st)) as [next|] eqn:Hnext;
        [|destruct (oauthStep st); [discriminate..|contradiction]].
      exists p, next. repeat split; try assumption.
      * eapply next_step_index; eassumption.
      * cbn. rewrite Hp. reflexivity.
    + destruct Hrun as (ps & Hup & Hps). exists ps.
      repeat split; try assumption. apply applyPatches_keeps_step, Hps.
  - injection Hrun as <- <-. exists []. rewrite app_nil_r.
    repeat split. constructor.
Qed.

(** C5. At [authorization_code] the driver always runs the action (the
    guard is [true]). With a code that is absent, empty or white space
    only, the action hands [updateState] one patch, which carries the
    validation message and no step, and then throws: the merged state is
    still at [authorization_code]. With any other code the action
    succeeds, its one patch clears [validationError] and sets the step to
    [token_request]. Nothing is saved and no SDK call is made. *)
Theorem authorization_code_validates url st w :
  oauthStep st = authorization_code ->
  exists p,
    (executeStep env url st w).1
    = {| storage := storage w; updates := updates w ++ [p];
         calls := calls w |}
    /\ if blank (authorizationCode st)
       then (executeStep env url st w).2
            = Throw (ThrownError (new_Error (js "Authorization code required")))
            /\ p_validationError p
               = Some (Some (js "You need to provide an authorization code"))
            /\ p_oauthStep p = None
            /\ validationError (applyPatch st p)
               = Some (js "You need to provide an authorization code")
            /\ oauthStep (applyPatch st p) = authorization_code
       else (executeStep env url st w).2 = Normal tt
            /\ p_validationError p = Some None
            /\ p_oauthStep p = Some token_request
            /\ validationError (applyPatch st p) = None
            /\ oauthStep (applyPatch st p) = token_request.
Proof.
  intros Hstep. unfold executeStep. rewrite Hstep.
  cbn [oauthTransitions canTransition execute].
  unfold authorization_code_execute. cbn [state].
  rewrite code_missing_blank.
  destruct (blank (authorizationCode st)); unfold_monad; cbn;
    eexists; (split; [reflexivity|]); cbn; rewrite ?Hstep; repeat split.
Qed.

(** ** Metadata discovery *)

(** The action once the three locals of the [try]/[catch] are known and
    the discovery at the resolved server succeeds and validates. *)
Lemma metadata_discovery_run url st w own resolved w1 metadata parsed :
  oauthStep st = metadata_discovery ->
  new_URL env url = Normal own ->
  resolve_auth_server env {| state := st; serverUrl := url |} own w
  = (w1, Normal resolved) ->
  discoverOAuthMetadata env resolved.2 = Normal (Some metadata) ->
  parseAsync env metadata = Normal parsed ->
  exists w' p,
    executeStep env url st w = (w', Normal tt)
    /\ updates w' = updates w1 ++ [p]
    /\ p_resourceMetadata p = Some resolved.1.1
    /\ p_resourceMetadataError p = Some resolved.1.2
    /\ p_authServerUrl p = Some (Some resolved.2)
    /\ p_oauthMetadata p = Some (Some parsed)
    /\ p_oauthStep p = Some client_registration
    /\ serverMetadata (entry (storage w') url) = Some parsed.
Proof.
  intros Hstep Hown Hres Hmd Hparse.
  destruct resolved as [[rm rme] u]. cbn [fst snd] in *.
  unfold executeStep. rewrite Hstep.
  cbn [oauthTransitions canTransition execute].
  unfold metadata_discovery_execute. unfold_provider; unfold_monad.
  cbn -[resolve_auth_server]. rewrite Hown.
  cbn -[resolve_auth_server]. rewrite Hres. cbn. rewrite Hmd. cbn.
  rewrite Hparse. cbn.
  eexists _, _. split; [reflexivity|]. cbn.
  repeat split. unfold entry. rewrite lookup_insert_eq. reflexivity.
Qed.

(** C6, amended. When the discovery of the protected-resource metadata
    throws, whatever the thrown value, and the authorization-server
    metadata is found at the target server's own URL
    ([new URL(serverUrl)]) and validates, [metadata_discovery] succeeds:
    its one patch has [authServerUrl] equal to that URL, the whole of it
    and not its origin; [resourceMetadataError] is the thrown [Error]
    itself or, for a thrown value that is not an [Error], a new [Error]
    whose message is [String] of the value; and the step is
    [client_registration]. *)
Theorem resource_metadata_failure_is_not_fatal
    url st w own t metadata parsed :
  oauthStep st = metadata_discovery ->
  new_URL env url = Normal own ->
  discoverOAuthProtectedResourceMetadata env url = Throw t ->
  discoverOAuthMetadata env own = Normal (Some metadata) ->
  parseAsync env metadata = Normal parsed ->
  exists w' p,
    executeStep env url st w = (w', Normal tt)
    /\ updates w' = updates w ++ [p]
    /\ p_authServerUrl p = Some (Some own)
    /\ p_resourceMetadataError p
       = Some (Some match t with
                    | ThrownError e => e
                    | ThrownOther text =>
                        {| name := js "Error"; message := text |}
                    end)
    /\ p_resourceMetadata p = Some None
    /\ p_oauthMetadata p = Some (Some parsed)
    /\ p_oauthStep p = Some client_registration
    /\ authServerUrl (applyPatch st p) = Some own
    /\ resourceMetadataError (applyPatch st p)
       = Some match t with
              | ThrownError e => e
              | ThrownOther text => {| name := js "Error"; message := text |}
              end
    /\ oauthStep (applyPatch st p) = client_registration.
Proof.
  intros Hstep Hown Hfail Hmd Hparse.
  destruct (metadata_discovery_run url st w own (None, Some (caught t), own)
              {| storage := storage w; updates := updates w;
                 calls := calls w ++
                   [discoverOAuthProtectedResourceMetadata_call url] |}
              metadata parsed Hstep Hown)
    as (w' & p & Hrun & Hup & Hrm & Hrme & Hurl & Hmeta & Hnext & _);
    try assumption.
  { unfold resolve_auth_server. unfold_monad. cbn. rewrite Hfail. reflexivity. }
  exists w', p. cbn in *.
  assert (Herr : caught t
                 = match t with
                   | ThrownError e => e
                   | ThrownOther text =>
                       {| name := js "Error"; message := text |}
                   end) by (destruct t; reflexivity).
  rewrite Herr in Hrme.
  repeat split; try assumption; cbn; rewrite ?Hurl, ?Hrme, ?Hnext; reflexivity.
Qed.

(** C10, amended. When the discovery of the protected-resource metadata
    succeeds with a document whose [authorization_servers] is absent or
    empty, [authServerUrl] stays the target server's own URL
    ([new URL(serverUrl)], the whole of it and not its origin),
    [resourceMetadataError] is [null], the document is recorded as
    [resourceMetadata], and, the authorization-server metadata being
    found there and valid, the step becomes [client_registration]. *)
Theorem resource_metadata_without_servers
    url st w own resource metadata parsed :
  oauthStep st = metadata_discovery ->
  new_URL env url = Normal own ->
  discoverOAuthProtectedResourceMetadata env url
  = Normal (Some resource) ->
  rm_authorization_servers resource = None
  \/ rm_authorization_servers resource = Some [] ->
  discoverOAuthMetadata env own = Normal (Some metadata) ->
  parseAsync env metadata = Normal parsed ->
  exists w' p,
    executeStep env url st w = (w', Normal tt)
    /\ updates w' = updates w ++ [p]
    /\ p_authServerUrl p = Some (Some own)
    /\ p_resourceMetadataError p = Some None
    /\ p_resourceMetadata p = Some (Some resource)
    /\ p_oauthStep p = Some client_registration
    /\ authServerUrl (applyPatch st p) = Some own
    /\ resourceMetadataError (applyPatch st p) = None
    /\ resourceMetadata (applyPatch st p) = Some resource
    /\ oauthStep (applyPatch st p) = client_registration.
Proof.
  intros Hstep Hown Hfound Hservers Hmd Hparse.
  destruct (metadata_discovery_run url st w own (Some resource, None, own)
              {| storage := storage w; updates := updates w;
                 calls := calls w ++
                   [discoverOAuthProtectedResourceMetadata_call url] |}
              metadata parsed Hstep Hown)
    as (w' & p & Hrun & Hup & Hrm & Hrme & Hurl & Hmeta & Hnext & _);
    try assumption.
  { unfold resolve_auth_server. unfold_monad. cbn. rewrite Hfound. cbn.
    destruct Hservers as [-> | ->]; reflexivity. }
  exists w', p. cbn in *.
  repeat split; try assumption; cbn;
    rewrite ?Hurl, ?Hrme, ?Hrm, ?Hnext; reflexivity.
Qed.

(** ** Client registration *)

(** The scope the action computes is the one the spec describes. *)
Lemma with_scope_registration_scope st metadata w :
  oauthMetadata st = Some metadata ->
  forall url,
  exists scopes,
    scopesSupported {| state := st; serverUrl := url |} w
    = (w, Normal scopes)
    /\ cm_scope (with_scope (clientMetadata env) scopes)
       = registration_scope (resourceMetadata st) metadata
           (cm_scope (clientMetadata env))
    /\ cm_rest (with_scope (clientMetadata env) scopes)
       = cm_rest (clientMetadata env).
Proof.
  intros Hmd url. unfold scopesSupported, registration_scope.
  cbn [state]. rewrite Hmd.
  destruct (resourceMetadata st) as [[servers [scopes|] rest]|]; cbn.
  - eexists. split; [reflexivity|]. split; reflexivity.
  - eexists. split; [reflexivity|].
    destruct (md_scopes_supported metadata); split; reflexivity.
  - eexists. split; [reflexivity|].
    destruct (md_scopes_supported metadata); split; reflexivity.
Qed.

(** C7. Every execution of [client_registration] sends one registration
    request, and the scope of its client-metadata payload is the resource
    metadata's [scopes_supported] joined by one space when that list is
    there, else the authorization-server metadata's [scopes_supported]
    joined the same way, else the scope the payload already had; the rest
    of the payload is the provider's. *)
Theorem registration_scope_prefers_resource url st w metadata :
  oauthStep st = client_registration ->
  oauthMetadata st = Some metadata ->
  exists payload,
    calls (executeStep env url st w).1
    = calls w ++ [registerClient_call url (Some metadata) payload]
    /\ cm_scope payload
       = registration_scope (resourceMetadata st) metadata
           (cm_scope (clientMetadata env))
    /\ cm_rest payload = cm_rest (clientMetadata env).
Proof.
  intros Hstep Hmd.
  destruct (with_scope_registration_scope st metadata w Hmd url)
    as (scopes & Hscopes & Hscope & Hrest).
  exists (with_scope (clientMetadata env) scopes).
  split; [|split; assumption].
  unfold executeStep. rewrite Hstep.
  cbn [oauthTransitions canTransition execute state].
  rewrite Hmd. unfold bind at 1. cbn.
  unfold client_registration_execute. unfold bind at 1. rewrite Hscopes.
  cbn [state serverUrl]. rewrite Hmd.
  unfold_provider; unfold_monad. cbn.
  destruct (registerClient env url (Some metadata)
              (with_scope (clientMetadata env) scopes)); reflexivity.
Qed.

(** ** The guard of [token_request] *)

(** The guard reads the code of the state and the two persisted copies,
    and nothing else. *)
Lemma token_request_guard url st w :
  canTransition (oauthTransitions env token_request)
    {| state := st; serverUrl := url |} w
  = (w, Normal (truthy_string (authorizationCode st)
                && truthy (serverMetadata (entry (storage w) url))
                && truthy (clientInfo (entry (storage w) url)))).
Proof.
  cbn [oauthTransitions canTransition]. unfold token_request_canTransition.
  unfold_provider; unfold_monad. cbn.
  destruct (truthy_string (authorizationCode st)); [|reflexivity]. cbn.
  destruct (truthy (serverMetadata (entry (storage w) url))); reflexivity.
Qed.

(** C3, amended. Whenever the guard of [token_request] lets the action
    run, the server metadata and the client information persisted for the
    target server are present. The in-memory [oauthMetadata] and
    [oauthClientInfo] are not read: two states with the same code get the
    same answer. *)
Theorem token_request_needs_persisted url st w :
  (canTransition (oauthTransitions env token_request)
     {| state := st; serverUrl := url |} w).2 = Normal true ->
  (is_Some (serverMetadata (entry (storage w) url))
   /\ is_Some (clientInfo (entry (storage w) url)))
  /\ forall st',
       authorizationCode st' = authorizationCode st ->
       (canTransition (oauthTransitions env token_request)
          {| state := st'; serverUrl := url |} w).2 = Normal true.
Proof.
  rewrite token_request_guard. cbn [snd]. intros [= Hguard].
  apply andb_prop in Hguard as [Hguard Hci].
  apply andb_prop in Hguard as [Hcode Hmd].
  split.
  - destruct (serverMetadata _), (clientInfo _); try discriminate.
    split; eexists; reflexivity.
  - intros st' Hsame. rewrite token_request_guard, Hsame, Hcode, Hmd, Hci.
    reflexivity.
Qed.

(** C4, amended. Whenever the guard of [token_request] lets the action
    run, [authorizationCode] is a string with at least one code unit.
    White space is not looked at. *)
Theorem token_request_needs_code url st w :
  (canTransition (oauthTransitions env token_request)
     {| state := st; serverUrl := url |} w).2 = Normal true ->
  exists c s, authorizationCode st = Some (c :: s).
Proof.
  rewrite token_request_guard. cbn [snd]. intros [= Hguard].
  apply andb_prop in Hguard as [Hguard _].
  apply andb_prop in Hguard as [Hcode _].
  destruct (authorizationCode st) as [[|c s]|]; try discriminate.
  eauto.
Qed.

(** ** The code verifier *)

(** The verifier that [startAuthorization] makes up has no influence on
    the patches nor on how the run ends. *)
Lemma made_up_verifier_unobservable url st w v :
  observable (executeStep (with_codeVerifier env v) url st w)
  = observable (executeStep env url st w).
Proof.
  unfold observable, executeStep.
  destruct (oauthStep st); cbn [oauthTransitions canTransition execute];
    unfold_table; unfold_provider; unfold_monad; cbn;
    split_goal; reflexivity.
Qed.

Lemma entry_insert (σ : gmap jsstring Persisted) url e :
  entry (<[url := e]> σ) url = e.
Proof. unfold entry. rewrite lookup_insert_eq. reflexivity. Qed.

(** Before [token_request] no step reads the store: what a run shows does
    not depend on what is saved. *)
Lemma storage_unobservable url st w1 w2 :
  oauthStep st <> token_request ->
  updates w1 = updates w2 ->
  observable (executeStep env url st w1)
  = observable (executeStep env url st w2).
Proof.
  intros Hstep Hup. unfold observable, executeStep.
  destruct (oauthStep st); try contradiction;
    cbn [oauthTransitions canTransition execute];
    unfold_table; unfold_provider; unfold_monad; cbn;
    split_goal; rewrite ?Hup; reflexivity.
Qed.

(** What [token_request] shows, a verifier being saved: the answer of the
    token endpoint. *)
Lemma token_request_observable url st w v :
  verifier (entry (storage w) url) = Some v ->
  observable
    (execute (oauthTransitions env token_request)
       {| state := st; serverUrl := url |} w)
  = match
      exchangeAuthorization env url
        (serverMetadata (entry (storage w) url))
        (clientInfo (entry (storage w) url))
        (authorizationCode st) v (redirectUrl env)
    with
    | Normal t =>
        (updates w ++
         [{| p_isInitiatingAuth := None; p_oauthTokens := Some (Some t);
             p_oauthStep := Some complete;
             p_resourceMetadata := None; p_resourceMetadataError := None;
             p_authServerUrl := None; p_oauthMetadata := None;
             p_oauthClientInfo := None; p_authorizationUrl := None;
             p_authorizationCode := None; p_latestError := None;
             p_statusMessage := None; p_validationError := None |}],
         Normal tt)
    | Throw e => (updates w, Throw e)
    end.
Proof.
  intros Hv. unfold observable.
  cbn [oauthTransitions execute]. unfold token_request_execute.
  unfold_provider; unfold_monad. cbn. rewrite Hv. cbn.
  destruct (exchangeAuthorization _ _ _ _ _ _ _); reflexivity.
Qed.

Lemma entry_with_saved_verifier url v w :
  entry (storage (with_saved_verifier url v w)) url
  = {| serverMetadata := serverMetadata (entry (storage w) url);
       clientInfo := clientInfo (entry (storage w) url);
       verifier := Some v;
       tokens := tokens (entry (storage w) url) |}.
Proof. unfold with_saved_verifier. cbn [storage]. apply entry_insert. Qed.

(** The verifier read back from the store reaches the patches only
    through what the token endpoint answers. *)
Lemma saved_verifier_unobservable url st w v1 v2 :
  (forall metadata client code redirect,
     exchangeAuthorization env url metadata client code v1 redirect
     = exchangeAuthorization env url metadata client code v2 redirect) ->
  observable (executeStep env url st (with_saved_verifier url v1 w))
  = observable (executeStep env url st (with_saved_verifier url v2 w)).
Proof.
  intros Hsame.
  destruct (decide (oauthStep st = token_request)) as [Hstep|Hstep];
    [|apply storage_unobservable; [assumption|reflexivity]].
  rewrite 2(executeStep_unfold _ _ _ _
              ltac:(rewrite Hstep; apply token_request_guard)).
  rewrite !entry_with_saved_verifier. cbn [serverMetadata clientInfo].
  destruct (_ && _ && _); [|reflexivity].
  rewrite Hstep.
  rewrite 2(token_request_observable _ _ _ _
              ltac:(rewrite entry_with_saved_verifier; reflexivity)).
  rewrite !entry_with_saved_verifier. cbn [serverMetadata clientInfo].
  rewrite Hsame. reflexivity.
Qed.

(** C9. No patch carries the PKCE code verifier. The verifier that
    [startAuthorization] produces is saved with [saveCodeVerifier], and
    the one patch of [authorization_redirect] has two keys only,
    [authorizationUrl] and [oauthStep]. For every step, the patches and
    the completion are the same whatever that verifier is; and they are
    the same whatever verifier is in the store, as long as the token
    endpoint answers alike. *)
Theorem code_verifier_stays_in_the_store url st w :
  (forall v,
     observable (executeStep (with_codeVerifier env v) url st w)
     = observable (executeStep env url st w))
  /\ (forall metadata authorizationUrl codeVerifier,
        oauthStep st = authorization_redirect ->
        oauthMetadata st = Some metadata ->
        is_Some (oauthClientInfo st) ->
        startAuthorization env url metadata (oauthClientInfo st)
          (redirectUrl env) (join (js " ") <$> md_scopes_supported metadata)
        = Normal (authorizationUrl, codeVerifier) ->
        exists w',
          executeStep env url st w = (w', Normal tt)
          /\ verifier (entry (storage w') url) = Some codeVerifier
          /\ updates w'
             = updates w ++
               [{| p_isInitiatingAuth := None; p_oauthTokens := None;
                   p_oauthStep := Some authorization_code;
                   p_resourceMetadata := None;
                   p_resourceMetadataError := None;
                   p_authServerUrl := None; p_oauthMetadata := None;
                   p_oauthClientInfo := None;
                   p_authorizationUrl :=
                     Some (Some (URL_toString env authorizationUrl));
                   p_authorizationCode := None; p_latestError := None;
                   p_statusMessage := None; p_validationError := None |}])
  /\ (forall v1 v2,
        (forall metadata client code redirect,
           exchangeAuthorization env url metadata client code v1 redirect
           = exchangeAuthorization env url metadata client code v2 redirect) ->
        observable (executeStep env url st (with_saved_verifier url v1 w))
        = observable (executeStep env url st (with_saved_verifier url v2 w))).
Proof.
  split; [|split].
  - intros v. apply made_up_verifier_unobservable.
  - intros metadata authorizationUrl codeVerifier Hstep Hmd [client Hci] Hstart.
    unfold executeStep. rewrite Hstep.
    cbn [oauthTransitions canTransition execute state].
    unfold authorization_redirect_execute. cbn [state serverUrl].
    rewrite Hmd, Hci in *. unfold_provider; unfold_monad. cbn.
    rewrite Hstart. cbn. eexists. split; [reflexivity|]. cbn.
    split; [|reflexivity]. unfold entry. rewrite lookup_insert_eq. reflexivity.
  - intros v1 v2. apply saved_verifier_unobservable.
Qed.

End Properties.

(** * The theorems at work on the fixtures *)

Lemma step_advances_only_on_success_witness :
  (Fixtures.discovery_run = (Fixtures.discovery_run.1, Normal tt)
   /\ (oauthStep Fixtures.EMPTY_DEBUGGER_STATE <> complete ->
       exists p next,
         updates Fixtures.discovery_run.1 = updates Fixtures.fresh ++ [p]
         /\ next_step (oauthStep Fixtures.EMPTY_DEBUGGER_STATE) = Some next
         /\ p_oauthStep p = Some next
         /\ step_index next
            = S (step_index (oauthStep Fixtures.EMPTY_DEBUGGER_STATE))
         /\ oauthStep (applyPatches Fixtures.EMPTY_DEBUGGER_STATE [p])
            = next))
  /\ (Fixtures.blank_code_run
      = (Fixtures.blank_code_run.1,
         Throw (ThrownError (new_Error (js "Authorization code required"))))
      /\ exists ps,
           updates Fixtures.blank_code_run.1
           = updates Fixtures.returned ++ ps
           /\ Forall (fun p => p_oauthStep p = None) ps
           /\ oauthStep
                (applyPatches (Fixtures.at_step authorization_code "   ") ps)
              = authorization_code).
Proof.
  assert (Hrun : Fixtures.discovery_run
                 = (Fixtures.discovery_run.1, Normal tt))
    by (vm_compute; reflexivity).
  assert (Hblank :
    Fixtures.blank_code_run
    = (Fixtures.blank_code_run.1,
       Throw (ThrownError (new_Error (js "Authorization code required")))))
    by (vm_compute; reflexivity).
  split; (split; [assumption|]).
  - exact (step_advances_only_on_success Fixtures.beforeEach Fixtures.target
             Fixtures.EMPTY_DEBUGGER_STATE Fixtures.fresh _ (Normal tt) Hrun).
  - exact (step_advances_only_on_success Fixtures.beforeEach Fixtures.target
             (Fixtures.at_step authorization_code "   ") Fixtures.returned
             _ (Throw _) Hblank).
Defined.

Lemma rejected_precondition_changes_nothing_witness :
  (canTransition
     (oauthTransitions Fixtures.beforeEach
        (oauthStep Fixtures.after_reload))
     {| state := Fixtures.after_reload; serverUrl := Fixtures.target |}
     Fixtures.fresh).2 = Normal false
  /\ executeStep Fixtures.beforeEach Fixtures.target Fixtures.after_reload
       Fixtures.fresh
     = (Fixtures.fresh, Throw (illegal_transition token_request)).
Proof.
  assert (Hguard :
    (canTransition
       (oauthTransitions Fixtures.beforeEach
          (oauthStep Fixtures.after_reload))
       {| state := Fixtures.after_reload; serverUrl := Fixtures.target |}
       Fixtures.fresh).2 = Normal false) by (vm_compute; reflexivity).
  split; [exact Hguard|].
  exact (proj1 (rejected_precondition_changes_nothing Fixtures.beforeEach
                  Fixtures.target Fixtures.after_reload Fixtures.fresh
                  Hguard)).
Defined.

(** C3 as the spec has it fails: after the reload the state holds neither
    the metadata nor the client, the store holds both, and the guard of
    [token_request] answers [true]. *)
Lemma token_request_runs_without_memory :
  ~ ((canTransition (oauthTransitions Fixtures.beforeEach token_request)
        {| state := Fixtures.after_reload; serverUrl := Fixtures.target |}
        Fixtures.returned).2 = Normal true ->
     is_Some (oauthMetadata Fixtures.after_reload)
     /\ is_Some (oauthClientInfo Fixtures.after_reload)).
Proof.
  intros Hclaim.
  destruct Hclaim as [[metadata Hmd] _]; [vm_compute; reflexivity|].
  discriminate Hmd.
Qed.

Lemma token_request_needs_persisted_witness :
  (canTransition (oauthTransitions Fixtures.beforeEach token_request)
     {| state := Fixtures.after_reload; serverUrl := Fixtures.target |}
     Fixtures.returned).2 = Normal true
  /\ is_Some (serverMetadata
                (entry (storage Fixtures.returned) Fixtures.target))
  /\ is_Some (clientInfo
                (entry (storage Fixtures.returned) Fixtures.target)).
Proof.
  assert (Hguard :
    (canTransition (oauthTransitions Fixtures.beforeEach token_request)
       {| state := Fixtures.after_reload; serverUrl := Fixtures.target |}
       Fixtures.returned).2 = Normal true) by (vm_compute; reflexivity).
  split; [exact Hguard|].
  exact (proj1 (token_request_needs_persisted Fixtures.beforeEach
                  Fixtures.target Fixtures.after_reload Fixtures.returned
                  Hguard)).
Defined.

(** C4 as the spec has it fails: with three spaces as the code the guard
    of [token_request] answers [true]. *)
Lemma token_request_runs_with_white_space :
  ~ ((canTransition (oauthTransitions Fixtures.beforeEach token_request)
        {| state := Fixtures.three_spaces; serverUrl := Fixtures.target |}
        Fixtures.returned).2 = Normal true ->
     blank (authorizationCode Fixtures.three_spaces) = false).
Proof.
  intros Hclaim. discriminate Hclaim. vm_compute. reflexivity.
Qed.

(** With the three spaces the driver goes all the way: the code is sent
    to the token endpoint as it is and the step becomes [complete]. *)
Example three_spaces_are_exchanged :
  (executeStep Fixtures.beforeEach Fixtures.target Fixtures.three_spaces
     Fixtures.returned).2 = Normal tt
  /\ calls (executeStep Fixtures.beforeEach Fixtures.target
              Fixtures.three_spaces Fixtures.returned).1
     = [exchangeAuthorization_call Fixtures.target
          (Some Fixtures.mockOAuthMetadata) (Some Fixtures.mockOAuthClientInfo)
          (Some (js "   ")) (js "test_verifier")
          (js "http://localhost:3000/oauth/callback/debug")].
Proof. split; vm_compute; reflexivity. Qed.

Lemma token_request_needs_code_witness :
  (canTransition (oauthTransitions Fixtures.beforeEach token_request)
     {| state := Fixtures.three_spaces; serverUrl := Fixtures.target |}
     Fixtures.returned).2 = Normal true
  /\ exists c s, authorizationCode Fixtures.three_spaces = Some (c :: s).
Proof.
  assert (Hguard :
    (canTransition (oauthTransitions Fixtures.beforeEach token_request)
       {| state := Fixtures.three_spaces; serverUrl := Fixtures.target |}
       Fixtures.returned).2 = Normal true) by (vm_compute; reflexivity).
  split; [exact Hguard|].
  exact (token_request_needs_code Fixtures.beforeEach Fixtures.target
           Fixtures.three_spaces Fixtures.returned Hguard).
Defined.

Lemma authorization_code_validates_witness :
  oauthStep (Fixtures.at_step authorization_code "   ") = authorization_code
  /\ (executeStep Fixtures.beforeEach Fixtures.target
        (Fixtures.at_step authorization_code "   ") Fixtures.returned).2
     = Throw (ThrownError (new_Error (js "Authorization code required")))
  /\ (executeStep Fixtures.beforeEach Fixtures.target
        (Fixtures.at_step authorization_code "test_code") Fixtures.returned).2
     = Normal tt.
Proof.
  split; [reflexivity|]. split.
  - destruct (authorization_code_validates Fixtures.beforeEach Fixtures.target
                (Fixtures.at_step authorization_code "   ") Fixtures.returned
                eq_refl) as (p & _ & Hblank).
    exact (proj1 Hblank).
  - destruct (authorization_code_validates Fixtures.beforeEach Fixtures.target
                (Fixtures.at_step authorization_code "test_code")
                Fixtures.returned eq_refl) as (p & _ & Hfilled).
    exact (proj1 Hfilled).
Defined.

Lemma resource_metadata_failure_is_not_fatal_witness :
  (exists w' p,
     Fixtures.discovery_run = (w', Normal tt)
     /\ updates w' = [p]
     /\ p_authServerUrl p = Some (Some (js "https://example.com"))
     /\ p_resourceMetadataError p
        = Some (Some (new_Error (js "No protected resource metadata found")))
     /\ p_oauthStep p = Some client_registration)
  /\ (exists w' p,
        executeStep Fixtures.rejected_with_text Fixtures.sse_target
          Fixtures.EMPTY_DEBUGGER_STATE Fixtures.fresh = (w', Normal tt)
        /\ updates w' = [p]
        /\ p_authServerUrl p = Some (Some (js "http://localhost:8787/sse"))
        /\ p_resourceMetadataError p
           = Some (Some {| name := js "Error"; message := js "offline" |})
        /\ p_oauthStep p = Some client_registration).
Proof.
  split.
  - destruct (resource_metadata_failure_is_not_fatal Fixtures.beforeEach
                Fixtures.target Fixtures.EMPTY_DEBUGGER_STATE Fixtures.fresh
                (js "https://example.com")
                (ThrownError
                   (new_Error (js "No protected resource metadata found")))
                Fixtures.mockOAuthMetadata Fixtures.mockOAuthMetadata
                eq_refl eq_refl eq_refl eq_refl eq_refl)
      as (w' & p & Hrun & Hup & Hurl & Herr & _ & _ & Hstep & _).
    exists w', p. repeat split; assumption.
  - destruct (resource_metadata_failure_is_not_fatal
                Fixtures.rejected_with_text Fixtures.sse_target
                Fixtures.EMPTY_DEBUGGER_STATE Fixtures.fresh
                (js "http://localhost:8787/sse")
                (ThrownOther (js "offline"))
                Fixtures.mockOAuthMetadata Fixtures.mockOAuthMetadata
                eq_refl eq_refl eq_refl eq_refl eq_refl)
      as (w' & p & Hrun & Hup & Hurl & Herr & _ & _ & Hstep & _).
    exists w', p. repeat split; assumption.
Defined.

(** C6 as the spec has it fails: for a target with a path the discovery
    of the resource metadata fails, the authorization-server metadata
    is found, the run succeeds, and [authServerUrl] is the target's
    whole URL, which is not its origin. *)
Lemma failed_discovery_keeps_the_whole_url :
  ~ ((executeStep Fixtures.beforeEach Fixtures.sse_target
        Fixtures.EMPTY_DEBUGGER_STATE Fixtures.fresh).2 = Normal tt ->
     map p_authServerUrl
       (updates (executeStep Fixtures.beforeEach Fixtures.sse_target
                   Fixtures.EMPTY_DEBUGGER_STATE Fixtures.fresh).1)
     = [Some (Some (Fixtures.origin Fixtures.sse_target))]).
Proof.
  intros Hclaim.
  assert (Hrun :
    (executeStep Fixtures.beforeEach Fixtures.sse_target
       Fixtures.EMPTY_DEBUGGER_STATE Fixtures.fresh).2 = Normal tt)
    by (vm_compute; reflexivity).
  apply Hclaim in Hrun. vm_compute in Hrun. discriminate Hrun.
Qed.

(** The origin of that target, and what the patch holds instead. *)
Example origin_of_a_target_with_a_path :
  Fixtures.origin Fixtures.sse_target = js "http://localhost:8787"
  /\ Fixtures.origin Fixtures.target = js "https://example.com"
  /\ map p_authServerUrl
       (updates (executeStep Fixtures.beforeEach Fixtures.sse_target
                   Fixtures.EMPTY_DEBUGGER_STATE Fixtures.fresh).1)
     = [Some (Some (js "http://localhost:8787/sse"))].
Proof. repeat split; vm_compute; reflexivity. Qed.

Lemma resource_metadata_without_servers_witness :
  exists w' p,
    executeStep Fixtures.with_resource Fixtures.target
      Fixtures.EMPTY_DEBUGGER_STATE Fixtures.fresh = (w', Normal tt)
    /\ updates w' = [p]
    /\ p_authServerUrl p = Some (Some (js "https://example.com"))
    /\ p_resourceMetadataError p = Some None
    /\ p_resourceMetadata p = Some (Some Fixtures.resource_without_servers)
    /\ p_oauthStep p = Some client_registration.
Proof.
  destruct (resource_metadata_without_servers Fixtures.with_resource
              Fixtures.target Fixtures.EMPTY_DEBUGGER_STATE Fixtures.fresh
              (js "https://example.com") Fixtures.resource_without_servers
              Fixtures.mockOAuthMetadata Fixtures.mockOAuthMetadata
              eq_refl eq_refl eq_refl (or_intror eq_refl) eq_refl eq_refl)
    as (w' & p & Hrun & Hup & Hurl & Herr & Hrm & Hstep & _).
  exists w', p. repeat split; assumption.
Defined.

(** C10 as the spec has it fails: for a target with a path the resource
    metadata is found and names no server, the run succeeds, and
    [authServerUrl] is the target's whole URL, which is not its
    origin. *)
Lemma no_named_server_keeps_the_whole_url :
  ~ ((executeStep Fixtures.with_resource Fixtures.sse_target
        Fixtures.EMPTY_DEBUGGER_STATE Fixtures.fresh).2 = Normal tt ->
     map (fun p => (p_resourceMetadata p, p_authServerUrl p))
       (updates (executeStep Fixtures.with_resource Fixtures.sse_target
                   Fixtures.EMPTY_DEBUGGER_STATE Fixtures.fresh).1)
     = [(Some (Some Fixtures.resource_without_servers),
         Some (Some (Fixtures.origin Fixtures.sse_target)))]).
Proof.
  intros Hclaim.
  assert (Hrun :
    (executeStep Fixtures.with_resource Fixtures.sse_target
       Fixtures.EMPTY_DEBUGGER_STATE Fixtures.fresh).2 = Normal tt)
    by (vm_compute; reflexivity).
  apply Hclaim in Hrun. vm_compute in Hrun. discriminate Hrun.
Qed.

Lemma registration_scope_prefers_resource_witness :
  oauthStep Fixtures.before_registration = client_registration
  /\ oauthMetadata Fixtures.before_registration
     = Some Fixtures.metadataWithScopes
  /\ exists payload,
       calls (executeStep Fixtures.beforeEach Fixtures.target
                Fixtures.before_registration Fixtures.fresh).1
       = [registerClient_call Fixtures.target
            (Some Fixtures.metadataWithScopes) payload]
       /\ cm_scope payload = Some (js "read write admin").
Proof.
  split; [reflexivity|]. split; [reflexivity|].
  destruct (registration_scope_prefers_resource Fixtures.beforeEach
              Fixtures.target Fixtures.before_registration Fixtures.fresh
              Fixtures.metadataWithScopes eq_refl eq_refl)
    as (payload & Hcalls & Hscope & _).
  exists payload. split; assumption.
Defined.

Lemma complete_is_terminal_witness :
  oauthStep (Fixtures.at_step complete "test_code") = complete
  /\ executeStep Fixtures.beforeEach Fixtures.target
       (Fixtures.at_step complete "test_code") Fixtures.returned
     = (Fixtures.returned, Throw (illegal_transition complete)).
Proof.
  split; [reflexivity|].
  exact (proj2 (complete_is_terminal Fixtures.beforeEach Fixtures.target
                  (Fixtures.at_step complete "test_code") Fixtures.returned
                  eq_refl)).
Defined.

Lemma code_verifier_stays_in_the_store_witness :
  exists w',
    executeStep Fixtures.beforeEach Fixtures.target Fixtures.before_redirect
      Fixtures.fresh = (w', Normal tt)
    /\ verifier (entry (storage w') Fixtures.target)
       = Some (js "test_verifier")
    /\ (map p_authorizationUrl (updates w'))
       = [Some (Some (js "https://oauth.example.com/authorize?scope=read write admin"))].
Proof.
  destruct (proj1 (proj2 (code_verifier_stays_in_the_store Fixtures.beforeEach
                            Fixtures.target Fixtures.before_redirect
                            Fixtures.fresh))
              Fixtures.metadataWithScopes
              (js "https://oauth.example.com/authorize?scope=read write admin")
              (js "test_verifier") eq_refl eq_refl
              (ex_intro _ Fixtures.mockOAuthClientInfo eq_refl) eq_refl)
    as (w' & Hrun & Hsaved & Hup).
  exists w'. split; [exact Hrun|]. split; [exact Hsaved|].
  rewrite Hup. reflexivity.
Defined.

(** ** The expectations of the test-suite *)

(** "should successfully fetch and display protected resource metadata":
    the authorization server is the first one the document names. *)
Example custom_auth_server :
  map (fun p => (p_resourceMetadata p, p_authServerUrl p, p_oauthStep p))
    (updates
       (executeStep
          (Fixtures.mock_env (Normal (Some Fixtures.mockResourceMetadata))
             Fixtures.mockOAuthMetadata)
          Fixtures.target Fixtures.EMPTY_DEBUGGER_STATE Fixtures.fresh).1)
  = [(Some (Some Fixtures.mockResourceMetadata),
      Some (Some (js "https://custom-auth.example.com")),
      Some client_registration)].
Proof. vm_compute. reflexivity. Qed.

(** "should not include scope in authorization URL when scopes_supported
    is not present" *)
Example no_scope_in_authorization_url :
  map p_authorizationUrl
    (updates
       (executeStep Fixtures.beforeEach Fixtures.target
          (Fixtures.in_memory (Some Fixtures.mockOAuthMetadata)
             (Some Fixtures.mockOAuthClientInfo)
             (Fixtures.at_step authorization_redirect ""))
          Fixtures.fresh).1)
  = [Some (Some (js "https://oauth.example.com/authorize"))].
Proof. vm_compute. reflexivity. Qed.

(** [trim] strips white space and line terminators at both ends only. *)
Example trim_keeps_the_middle :
  trim (js " " ++ [0x3000; 0x000A] ++ js "a b" ++ [0x2028; 0xFEFF])
  = js "a b".
Proof. vm_compute. reflexivity. Qed.

(** The guided flow, step by step: three presses lead to
    [authorization_code], a press without a code stays there, and with
    the code typed in two more presses reach [complete], where a further
    press changes nothing. *)
Example guided_flow :
  let press := Fixtures.press_continue in
  let start := (Fixtures.EMPTY_DEBUGGER_STATE, Fixtures.fresh) in
  let waiting := press (press (press start)) in
  let done := press (press (Fixtures.type_code "test_code" waiting)) in
  oauthStep waiting.1 = authorization_code
  /\ oauthStep (press waiting).1 = authorization_code
  /\ validationError (press waiting).1
     = Some (js "You need to provide an authorization code")
  /\ oauthStep done.1 = complete
  /\ oauthTokens done.1 = Some Fixtures.mockOAuthTokens
  /\ (press done).1 = done.1.
Proof. vm_compute. repeat split; reflexivity. Qed.

(** * Further properties of the transition table and of the driver *)

Section Coverage.
Context `{SdkTypes} (env : Environment).

(** ** What a run does to the store *)

(** The effect of an action on the store: other servers' entries stay,
    a run that throws writes nothing, and no component of the server's
    entry that was saved gets lost. *)
Lemma execute_storage step context w w' c :
  execute (oauthTransitions env step) context w = (w', c) ->
  (forall other, other <> serverUrl context ->
                 storage w' !! other = storage w !! other)
  /\ (forall t, c = Throw t -> storage w' = storage w)
  /\ (is_Some (serverMetadata (entry (storage w) (serverUrl context))) ->
      is_Some (serverMetadata (entry (storage w') (serverUrl context))))
  /\ (is_Some (clientInfo (entry (storage w) (serverUrl context))) ->
      is_Some (clientInfo (entry (storage w') (serverUrl context))))
  /\ (is_Some (verifier (entry (storage w) (serverUrl context))) ->
      is_Some (verifier (entry (storage w') (serverUrl context))))
  /\ (is_Some (tokens (entry (storage w) (serverUrl context))) ->
      is_Some (tokens (entry (storage w') (serverUrl context)))).
Proof.
  intros Hrun.
  destruct step; cbn [oauthTransitions execute] in Hrun;
    unfold_table; unfold_provider; unfold_monad; cbn in Hrun.
  all: split_run Hrun.
  all: injection Hrun as <- <-; cbn [storage].
  all: rewrite ?entry_insert; cbn [serverMetadata clientInfo verifier tokens].
  all: repeat split; try discriminate; try tauto; eauto.
  all: try (intros other Hother; apply lookup_insert_ne; congruence).
  all: intros [? [=]].
Qed.

(** The two ways a run of the driver goes: rejected with the world as it
    was, or the action of the step run from that world. *)
Lemma executeStep_cases url st w w' c :
  executeStep env url st w = (w', c) ->
  w' = w /\ c = Throw (illegal_transition (oauthStep st))
  \/ execute (oauthTransitions env (oauthStep st))
       {| state := st; serverUrl := url |} w = (w', c).
Proof.
  intros Hrun.
  destruct (canTransition_pure env (oauthStep st)
              {| state := st; serverUrl := url |} w) as [ok Hok].
  rewrite (executeStep_unfold _ _ _ _ _ Hok) in Hrun.
  destruct ok; [right; exact Hrun|left].
  injection Hrun as <- <-. split; reflexivity.
Qed.

(** Only [authorization_code] hands over a patch and then throws. *)
Lemma execute_throw_updates step context w w' t :
  step <> authorization_code ->
  execute (oauthTransitions env step) context w = (w', Throw t) ->
  updates w' = updates w.
Proof.
  intros Hstep Hrun.
  destruct step; try contradiction; cbn [oauthTransitions execute] in Hrun;
    unfold_table; unfold_provider; unfold_monad; cbn in Hrun.
  all: split_run Hrun.
  all: inversion Hrun; subst; reflexivity.
Qed.

(** What a successful action has saved is what its patch carries. *)
Lemma execute_saves_patch step context w w' p :
  execute (oauthTransitions env step) context w = (w', Normal tt) ->
  updates w' = updates w ++ [p] ->
  (forall metadata,
     p_oauthMetadata p = Some (Some metadata) ->
     serverMetadata (entry (storage w') (serverUrl context)) = Some metadata)
  /\ (forall client,
        p_oauthClientInfo p = Some (Some client) ->
        clientInfo (entry (storage w') (serverUrl context)) = Some client)
  /\ (forall t,
        p_oauthTokens p = Some (Some t) ->
        tokens (entry (storage w') (serverUrl context)) = Some t).
Proof.
  intros Hrun Hup.
  destruct step; cbn [oauthTransitions execute] in Hrun;
    unfold_table; unfold_provider; unfold_monad; cbn in Hrun.
  all: split_run Hrun.
  all: injection Hrun as <-; cbn [updates storage] in *.
  all: try (apply app_inv_head in Hup; injection Hup as <-).
  all: try (apply (f_equal (@List.length Patch)) in Hup;
            rewrite length_app in Hup; cbn in Hup; lia).
  all: rewrite ?entry_insert;
    cbn [serverMetadata clientInfo tokens p_oauthMetadata p_oauthClientInfo
           p_oauthTokens].
  all: repeat split; congruence.
Qed.

(** X1. A run of the driver for one server leaves the entries of all
    other servers in the store as they were, whatever the step and
    however the run ends. *)
Theorem other_servers_untouched url st w w' c other :
  executeStep env url st w = (w', c) ->
  other <> url ->
  storage w' !! other = storage w !! other.
Proof.
  intros Hrun Hother.
  destruct (executeStep_cases _ _ _ _ _ Hrun) as [[-> _]|Hexec];
    [reflexivity|].
  apply execute_storage in Hexec as [Hframe _].
  apply Hframe. exact Hother.
Qed.

(** X2. A run that throws has saved nothing: the store is the one it
    started from; and unless the step is [authorization_code] (whose
    validation message is handed over before the throw) [updateState] was
    not called either. *)
Theorem failed_run_saves_nothing url st w w' t :
  executeStep env url st w = (w', Throw t) ->
  storage w' = storage w
  /\ (oauthStep st <> authorization_code -> updates w' = updates w).
Proof.
  intros Hrun.
  destruct (executeStep_cases _ _ _ _ _ Hrun) as [[-> _]|Hexec];
    [split; reflexivity|].
  split.
  - apply execute_storage in Hexec as (_ & Hthrow & _).
    eapply Hthrow. reflexivity.
  - intros Hstep. eapply execute_throw_updates; eassumption.
Qed.

(** X3. No run loses what was saved for the server: the metadata, the
    client, the verifier and the tokens that were in the store before
    the run are still there after it (possibly replaced), whatever the
    step and however the run ends. *)
Theorem persisted_data_is_kept url st w w' c :
  executeStep env url st w = (w', c) ->
  (is_Some (serverMetadata (entry (storage w) url)) ->
   is_Some (serverMetadata (entry (storage w') url)))
  /\ (is_Some (clientInfo (entry (storage w) url)) ->
      is_Some (clientInfo (entry (storage w') url)))
  /\ (is_Some (verifier (entry (storage w) url)) ->
      is_Some (verifier (entry (storage w') url)))
  /\ (is_Some (tokens (entry (storage w) url)) ->
      is_Some (tokens (entry (storage w') url))).
Proof.
  intros Hrun.
  destruct (executeStep_cases _ _ _ _ _ Hrun) as [[-> _]|Hexec];
    [tauto|].
  apply execute_storage in Hexec as (_ & _ & Hkept). exact Hkept.
Qed.

(** X4. After a successful run the durable copy agrees with the patch:
    the metadata, the client or the tokens that the patch carries are the
    ones the store now holds for the server. *)
Theorem saved_copy_agrees_with_patch url st w w' p :
  executeStep env url st w = (w', Normal tt) ->
  updates w' = updates w ++ [p] ->
  (forall metadata,
     p_oauthMetadata p = Some (Some metadata) ->
     serverMetadata (entry (storage w') url) = Some metadata)
  /\ (forall client,
        p_oauthClientInfo p = Some (Some client) ->
        clientInfo (entry (storage w') url) = Some client)
  /\ (forall t,
        p_oauthTokens p = Some (Some t) ->
        tokens (entry (storage w') url) = Some t).
Proof.
  intros Hrun Hup.
  destruct (executeStep_cases _ _ _ _ _ Hrun) as [[_ [=]]|Hexec].
  exact (execute_saves_patch _ _ _ _ _ Hexec Hup).
Qed.

(** ** Metadata discovery *)

(** The [try]/[catch] never throws: it makes its one call and yields the
    three locals. *)
Lemma resolve_auth_server_total context own w :
  exists resolved,
    resolve_auth_server env context own w
    = ({| storage := storage w; updates := updates w;
          calls := calls w ++
            [discoverOAuthProtectedResourceMetadata_call (serverUrl context)] |},
       Normal resolved).
Proof.
  unfold resolve_auth_server. unfold_monad. cbn.
  destruct (discoverOAuthProtectedResourceMetadata env (serverUrl context))
    as [[resource|]|t]; cbn; eauto.
  destruct (rm_authorization_servers resource) as [[|first rest]|]; cbn; eauto.
  destruct (new_URL env first); eauto.
Qed.

(** The calls of a discovery that goes through, in their order. *)
Lemma metadata_discovery_calls url st w own resolved w1 metadata parsed :
  oauthStep st = metadata_discovery ->
  new_URL env url = Normal own ->
  resolve_auth_server env {| state := st; serverUrl := url |} own w
  = (w1, Normal resolved) ->
  discoverOAuthMetadata env resolved.2 = Normal (Some metadata) ->
  parseAsync env metadata = Normal parsed ->
  calls (executeStep env url st w).1
  = calls w1 ++ [discoverOAuthMetadata_call resolved.2;
                 parseAsync_call metadata].
Proof.
  intros Hstep Hown Hres Hmd Hparse.
  destruct resolved as [[rm rme] u]. cbn [fst snd] in *.
  unfold executeStep. rewrite Hstep.
  cbn [oauthTransitions canTransition execute].
  unfold metadata_discovery_execute. unfold_provider; unfold_monad.
  cbn -[resolve_auth_server]. rewrite Hown.
  cbn -[resolve_auth_server]. rewrite Hres. cbn. rewrite Hmd. cbn.
  rewrite Hparse. cbn. rewrite <- app_assoc. reflexivity.
Qed.

(** X5. When the protected-resource metadata names authorization
    servers, the first one is taken, provided it parses as a URL: the
    authorization-server metadata is fetched there and not at the target
    server, and the patch carries that URL, the document, and no error. *)
Theorem named_authorization_server_is_used
    url st w own resource first others server metadata parsed :
  oauthStep st = metadata_discovery ->
  new_URL env url = Normal own ->
  discoverOAuthProtectedResourceMetadata env url = Normal (Some resource) ->
  rm_authorization_servers resource = Some (first :: others) ->
  new_URL env first = Normal server ->
  discoverOAuthMetadata env server = Normal (Some metadata) ->
  parseAsync env metadata = Normal parsed ->
  exists w' p,
    executeStep env url st w = (w', Normal tt)
    /\ calls w'
       = calls w ++ [discoverOAuthProtectedResourceMetadata_call url;
                     discoverOAuthMetadata_call server;
                     parseAsync_call metadata]
    /\ updates w' = updates w ++ [p]
    /\ p_authServerUrl p = Some (Some server)
    /\ p_resourceMetadata p = Some (Some resource)
    /\ p_resourceMetadataError p = Some None
    /\ p_oauthMetadata p = Some (Some parsed)
    /\ p_oauthStep p = Some client_registration.
Proof.
  intros Hstep Hown Hfound Hservers Hfirst Hmd Hparse.
  assert (Hres :
    resolve_auth_server env {| state := st; serverUrl := url |} own w
    = ({| storage := storage w; updates := updates w;
          calls := calls w ++
            [discoverOAuthProtectedResourceMetadata_call url] |},
       Normal (Some resource, None, server))).
  { unfold resolve_auth_server. unfold_monad. cbn. rewrite Hfound. cbn.
    rewrite Hservers, Hfirst. reflexivity. }
  destruct (metadata_discovery_run env url st w own _ _ metadata parsed
              Hstep Hown Hres Hmd Hparse)
    as (w' & p & Hrun & Hup & Hrm & Hrme & Hurl & Hmeta & Hnext & _).
  pose proof (metadata_discovery_calls url st w own _ _ metadata parsed
                Hstep Hown Hres Hmd Hparse) as Hcalls.
  rewrite Hrun in Hcalls. cbn in Hcalls, Hup, Hrm, Hrme, Hurl.
  exists w', p. repeat split; try assumption.
  rewrite Hcalls, <- app_assoc. reflexivity.
Qed.

(** X6. When the first authorization server that the resource metadata
    names is not a URL, the [TypeError] of [new URL] is caught like a
    failed discovery: it becomes [resourceMetadataError], the document
    stays recorded as [resourceMetadata], and the flow goes on at the
    target server's own URL. *)
Theorem malformed_authorization_server_is_not_fatal
    url st w own resource first others t metadata parsed :
  oauthStep st = metadata_discovery ->
  new_URL env url = Normal own ->
  discoverOAuthProtectedResourceMetadata env url = Normal (Some resource) ->
  rm_authorization_servers resource = Some (first :: others) ->
  new_URL env first = Throw t ->
  discoverOAuthMetadata env own = Normal (Some metadata) ->
  parseAsync env metadata = Normal parsed ->
  exists w' p,
    executeStep env url st w = (w', Normal tt)
    /\ calls w'
       = calls w ++ [discoverOAuthProtectedResourceMetadata_call url;
                     discoverOAuthMetadata_call own;
                     parseAsync_call metadata]
    /\ updates w' = updates w ++ [p]
    /\ p_authServerUrl p = Some (Some own)
    /\ p_resourceMetadata p = Some (Some resource)
    /\ p_resourceMetadataError p = Some (Some (caught t))
    /\ p_oauthStep p = Some client_registration.
Proof.
  intros Hstep Hown Hfound Hservers Hfirst Hmd Hparse.
  assert (Hres :
    resolve_auth_server env {| state := st; serverUrl := url |} own w
    = ({| storage := storage w; updates := updates w;
          calls := calls w ++
            [discoverOAuthProtectedResourceMetadata_call url] |},
       Normal (Some resource, Some (caught t), own))).
  { unfold resolve_auth_server. unfold_monad. cbn. rewrite Hfound. cbn.
    rewrite Hservers, Hfirst. reflexivity. }
  destruct (metadata_discovery_run env url st w own _ _ metadata parsed
              Hstep Hown Hres Hmd Hparse)
    as (w' & p & Hrun & Hup & Hrm & Hrme & Hurl & Hmeta & Hnext & _).
  pose proof (metadata_discovery_calls url st w own _ _ metadata parsed
                Hstep Hown Hres Hmd Hparse) as Hcalls.
  rewrite Hrun in Hcalls. cbn in Hcalls, Hup, Hrm, Hrme, Hurl.
  exists w', p. repeat split; try assumption.
  rewrite Hcalls, <- app_assoc. reflexivity.
Qed.

(** X7. When no authorization-server metadata is found ([undefined])
    at the server that the [try]/[catch] has resolved, be it the first
    server the resource metadata names or the target itself,
    [metadata_discovery] throws
    [Error("Failed to discover OAuth metadata")]: the run has made the
    two discovery calls and no other, nothing is validated, nothing is
    saved and no patch is handed over. What the discovery would find at
    any other server plays no part. *)
Theorem metadata_not_found_is_fatal url st w own w1 resolved :
  oauthStep st = metadata_discovery ->
  new_URL env url = Normal own ->
  resolve_auth_server env {| state := st; serverUrl := url |} own w
  = (w1, Normal resolved) ->
  discoverOAuthMetadata env resolved.2 = Normal None ->
  exists w',
    executeStep env url st w
    = (w', Throw (ThrownError
                    (new_Error (js "Failed to discover OAuth metadata"))))
    /\ storage w' = storage w
    /\ updates w' = updates w
    /\ calls w'
       = calls w ++ [discoverOAuthProtectedResourceMetadata_call url;
                     discoverOAuthMetadata_call resolved.2]
    /\ map callee (calls w')
       = map callee (calls w)
         ++ [discoverOAuthProtectedResourceMetadata_fn;
             discoverOAuthMetadata_fn].
Proof.
  intros Hstep Hown Hres Hnone.
  destruct (resolve_auth_server_total {| state := st; serverUrl := url |}
              own w) as [resolved' Htotal].
  rewrite Htotal in Hres. injection Hres as <- ->.
  destruct resolved as [[rm rme] u]. cbn [snd] in *.
  unfold executeStep. rewrite Hstep.
  cbn [oauthTransitions canTransition execute].
  unfold metadata_discovery_execute. unfold_provider; unfold_monad.
  cbn -[resolve_auth_server]. rewrite Hown.
  cbn -[resolve_auth_server]. rewrite Htotal. cbn. rewrite Hnone. cbn.
  eexists. split; [reflexivity|]. cbn. repeat split.
  - rewrite <- app_assoc. reflexivity.
  - rewrite !map_app. cbn. rewrite <- app_assoc. reflexivity.
Qed.

(** ** Registration, redirect and token request *)

(** The run of [client_registration] once its guard has passed. *)
Lemma client_registration_run url st w metadata scopes :
  oauthStep st = client_registration ->
  oauthMetadata st = Some metadata ->
  scopesSupported {| state := st; serverUrl := url |} w = (w, Normal scopes) ->
  executeStep env url st w
  = match registerClient env url (Some metadata)
            (with_scope (clientMetadata env) scopes) with
    | Normal client =>
        ({| storage :=
              <[url := {| serverMetadata :=
                            serverMetadata (entry (storage w) url);
                          clientInfo := Some client;
                          verifier := verifier (entry (storage w) url);
                          tokens := tokens (entry (storage w) url) |}]>
                (storage w);
            updates := updates w ++
              [{| p_isInitiatingAuth := None; p_oauthTokens := None;
                  p_oauthStep := Some authorization_redirect;
                  p_resourceMetadata := None;
                  p_resourceMetadataError := None;
                  p_authServerUrl := None; p_oauthMetadata := None;
                  p_oauthClientInfo := Some (Some client);
                  p_authorizationUrl := None; p_authorizationCode := None;
                  p_latestError := None; p_statusMessage := None;
                  p_validationError := None |}];
            calls := calls w ++
              [registerClient_call url (Some metadata)
                 (with_scope (clientMetadata env) scopes)] |},
         Normal tt)
    | Throw t =>
        ({| storage := storage w; updates := updates w;
            calls := calls w ++
              [registerClient_call url (Some metadata)
                 (with_scope (clientMetadata env) scopes)] |},
         Throw t)
    end.
Proof.
  intros Hstep Hmd Hscopes.
  unfold executeStep. rewrite Hstep.
  cbn [oauthTransitions canTransition execute state].
  rewrite Hmd. unfold bind at 1. cbn.
  unfold client_registration_execute. unfold bind at 1. rewrite Hscopes.
  cbn [state serverUrl]. rewrite Hmd.
  unfold_provider; unfold_monad. cbn.
  destruct (registerClient env url (Some metadata)
              (with_scope (clientMetadata env) scopes)); reflexivity.
Qed.

(** X8. [client_registration], its guard passed, sends one request. If
    the server registers the client, the client is saved for the server,
    the one patch carries it and sets [authorization_redirect]; if the
    request is rejected, the rejection is rethrown as it is, nothing is
    saved and no patch is handed over. *)
Theorem registration_outcome url st w metadata :
  oauthStep st = client_registration ->
  oauthMetadata st = Some metadata ->
  exists payload,
    calls (executeStep env url st w).1
    = calls w ++ [registerClient_call url (Some metadata) payload]
    /\ match registerClient env url (Some metadata) payload with
       | Normal client =>
           (executeStep env url st w).2 = Normal tt
           /\ clientInfo (entry (storage (executeStep env url st w).1) url)
              = Some client
           /\ exists p,
                updates (executeStep env url st w).1 = updates w ++ [p]
                /\ p_oauthClientInfo p = Some (Some client)
                /\ p_oauthStep p = Some authorization_redirect
       | Throw t =>
           (executeStep env url st w).2 = Throw t
           /\ storage (executeStep env url st w).1 = storage w
           /\ updates (executeStep env url st w).1 = updates w
       end.
Proof.
  intros Hstep Hmd.
  destruct (with_scope_registration_scope env st metadata w Hmd url)
    as (scopes & Hscopes & _).
  exists (with_scope (clientMetadata env) scopes).
  rewrite (client_registration_run url st w metadata scopes Hstep Hmd Hscopes).
  destruct (registerClient env url (Some metadata)
              (with_scope (clientMetadata env) scopes)); cbn.
  - split; [reflexivity|]. split; [reflexivity|].
    split; [rewrite entry_insert; reflexivity|]. eexists. repeat split.
  - repeat split.
Qed.

(** X9. [authorization_redirect], its guard passed, asks for the
    authorization URL with the in-memory metadata and client, the
    provider's redirect URL, and as scope the authorization-server
    metadata's [scopes_supported] joined by one space, or no scope when
    that list is absent. The scopes of the resource metadata play no
    part here. A rejection is rethrown as it is. *)
Theorem redirect_scope_from_server_metadata url st w metadata client :
  oauthStep st = authorization_redirect ->
  oauthMetadata st = Some metadata ->
  oauthClientInfo st = Some client ->
  calls (executeStep env url st w).1
  = calls w ++
    [startAuthorization_call url metadata (Some client) (redirectUrl env)
       match md_scopes_supported metadata with
       | Some scopes => Some (join (js " ") scopes)
       | None => None
       end]
  /\ forall t,
       startAuthorization env url metadata (Some client) (redirectUrl env)
         match md_scopes_supported metadata with
         | Some scopes => Some (join (js " ") scopes)
         | None => None
         end = Throw t ->
       (executeStep env url st w).2 = Throw t.
Proof.
  intros Hstep Hmd Hci.
  unfold executeStep. rewrite Hstep.
  cbn [oauthTransitions canTransition execute state].
  unfold authorization_redirect_execute. cbn [state serverUrl].
  rewrite Hmd, Hci. unfold_provider; unfold_monad. cbn.
  destruct (md_scopes_supported metadata) as [scopes|]; cbn.
  - destruct (startAuthorization env url metadata (Some client)
                (redirectUrl env) (Some (join (js " ") scopes)))
      as [[authorizationUrl v]|t0]; cbn;
      (split; [reflexivity|]); intros t [=]; subst; reflexivity.
  - destruct (startAuthorization env url metadata (Some client)
                (redirectUrl env) None)
      as [[authorizationUrl v]|t0]; cbn;
      (split; [reflexivity|]); intros t [=]; subst; reflexivity.
Qed.

(** X10. [token_request], its guard passed and a verifier saved, sends to
    the token endpoint the metadata, the client and the verifier of the
    store (not the in-memory copies) with the code of the state. If
    tokens come back they are saved, and the one patch carries them and
    sets [complete]; a rejection is rethrown as it is. *)
Theorem token_request_exchanges_persisted url st w metadata client v :
  oauthStep st = token_request ->
  truthy_string (authorizationCode st) = true ->
  serverMetadata (entry (storage w) url) = Some metadata ->
  clientInfo (entry (storage w) url) = Some client ->
  verifier (entry (storage w) url) = Some v ->
  calls (executeStep env url st w).1
  = calls w ++
    [exchangeAuthorization_call url (Some metadata) (Some client)
       (authorizationCode st) v (redirectUrl env)]
  /\ match
       exchangeAuthorization env url (Some metadata) (Some client)
         (authorizationCode st) v (redirectUrl env)
     with
     | Normal t =>
         (executeStep env url st w).2 = Normal tt
         /\ tokens (entry (storage (executeStep env url st w).1) url) = Some t
         /\ exists p,
              updates (executeStep env url st w).1 = updates w ++ [p]
              /\ p_oauthTokens p = Some (Some t)
              /\ p_oauthStep p = Some complete
     | Throw e => (executeStep env url st w).2 = Throw e
     end.
Proof.
  intros Hstep Hcode Hmd Hci Hv.
  rewrite (executeStep_unfold env url st w true)
    by (rewrite Hstep, token_request_guard, Hcode, Hmd, Hci; reflexivity).
  rewrite Hstep. cbn [oauthTransitions execute].
  unfold token_request_execute. unfold_provider; unfold_monad. cbn.
  rewrite Hv. cbn. rewrite Hmd, Hci.
  destruct (exchangeAuthorization env url (Some metadata) (Some client)
              (authorizationCode st) v (redirectUrl env)); cbn.
  - split; [reflexivity|]. split; [reflexivity|].
    split; [rewrite entry_insert; reflexivity|]. eexists. repeat split.
  - split; reflexivity.
Qed.

(** X11. [token_request] reads the verifier before anything else: when
    none is saved and [provider.codeVerifier()] throws, that is what the
    run throws, and the token endpoint is never called, nothing is saved
    and no patch is handed over, although the guard had passed. *)
Theorem missing_verifier_stops_token_request url st w t :
  oauthStep st = token_request ->
  (canTransition (oauthTransitions env token_request)
     {| state := st; serverUrl := url |} w).2 = Normal true ->
  verifier (entry (storage w) url) = None ->
  codeVerifier_missing env = Throw t ->
  executeStep env url st w = (w, Throw t).
Proof.
  intros Hstep Hguard Hv Hmissing.
  rewrite token_request_guard in Hguard. cbn [snd] in Hguard.
  injection Hguard as Hguard.
  rewrite (executeStep_unfold env url st w true)
    by (rewrite Hstep, token_request_guard, Hguard; reflexivity).
  rewrite Hstep. cbn [oauthTransitions execute].
  unfold token_request_execute. unfold_provider; unfold_monad. cbn.
  rewrite Hv. cbn. rewrite Hmissing. reflexivity.
Qed.

(** ** What the patches never do *)

Lemma execute_patches step context w w' c :
  execute (oauthTransitions env step) context w = (w', c) ->
  exists ps,
    updates w' = updates w ++ ps
    /\ Forall leaves_operator_fields ps
    /\ Forall clears_nothing ps.
Proof.
  intros Hrun.
  destruct step; cbn [oauthTransitions execute] in Hrun;
    unfold_table; unfold_provider; unfold_monad; cbn in Hrun.
  all: split_run Hrun.
  all: injection Hrun as <- <-; cbn [updates].
  all: try (exists []; rewrite app_nil_r;
            split; [reflexivity|split; constructor]).
  all: eexists [_]; split; [reflexivity|].
  all: split; repeat constructor; cbn; discriminate.
Qed.

Lemma executeStep_patches url st w w' c :
  executeStep env url st w = (w', c) ->
  exists ps,
    updates w' = updates w ++ ps
    /\ Forall leaves_operator_fields ps
    /\ Forall clears_nothing ps.
Proof.
  intros Hrun.
  destruct (executeStep_cases _ _ _ _ _ Hrun) as [[-> _]|Hexec].
  - exists []. rewrite app_nil_r. split; [reflexivity|split; constructor].
  - eapply execute_patches. eassumption.
Qed.

(** X12. The machine never writes the operator's fields: whatever patches
    a run hands over, merging them leaves [authorizationCode],
    [latestError], [statusMessage] and [isInitiatingAuth] as they
    were. *)
Theorem operator_fields_untouched url st w w' c ps :
  executeStep env url st w = (w', c) ->
  updates w' = updates w ++ ps ->
  authorizationCode (applyPatches st ps) = authorizationCode st
  /\ latestError (applyPatches st ps) = latestError st
  /\ statusMessage (applyPatches st ps) = statusMessage st
  /\ isInitiatingAuth (applyPatches st ps) = isInitiatingAuth st.
Proof.
  intros Hrun Hup.
  destruct (executeStep_patches _ _ _ _ _ Hrun) as (ps' & Hup' & Hleaves & _).
  rewrite Hup' in Hup. apply app_inv_head in Hup as <-.
  clear Hrun Hup'. unfold applyPatches. revert st.
  induction Hleaves as [|p ps' (Hcode & Herr & Hmsg & Hinit) _ IH];
    intros st; [repeat split|].
  cbn [foldl]. destruct (IH (applyPatch st p)) as (-> & -> & -> & ->).
  cbn. rewrite Hcode, Herr, Hmsg, Hinit. repeat split.
Qed.

(** X13. The machine never clears an artifact of the flow: metadata,
    client, tokens, authorization URL and authorization-server URL that
    the state holds before a run are still there (possibly replaced)
    after the patches of the run are merged. *)
Theorem artifacts_are_never_cleared url st w w' c ps :
  executeStep env url st w = (w', c) ->
  updates w' = updates w ++ ps ->
  (is_Some (oauthMetadata st) -> is_Some (oauthMetadata (applyPatches st ps)))
  /\ (is_Some (oauthClientInfo st) ->
      is_Some (oauthClientInfo (applyPatches st ps)))
  /\ (is_Some (oauthTokens st) -> is_Some (oauthTokens (applyPatches st ps)))
  /\ (is_Some (authorizationUrl st) ->
      is_Some (authorizationUrl (applyPatches st ps)))
  /\ (is_Some (authServerUrl st) ->
      is_Some (authServerUrl (applyPatches st ps))).
Proof.
  intros Hrun Hup.
  destruct (executeStep_patches _ _ _ _ _ Hrun) as (ps' & Hup' & _ & Hclears).
  rewrite Hup' in Hup. apply app_inv_head in Hup as <-.
  clear Hrun Hup'. unfold applyPatches. revert st.
  induction Hclears as [|p ps' (Hmd & Hci & Htok & Hurl & Hsrv) _ IH];
    intros st; [tauto|].
  cbn [foldl]. destruct (IH (applyPatch st p)) as (IH1 & IH2 & IH3 & IH4 & IH5).
  repeat split; intros Hsome;
    [apply IH1|apply IH2|apply IH3|apply IH4|apply IH5]; cbn.
  - destruct (p_oauthMetadata p) as [[?|]|]; cbn; eauto; contradiction.
  - destruct (p_oauthClientInfo p) as [[?|]|]; cbn; eauto; contradiction.
  - destruct (p_oauthTokens p) as [[?|]|]; cbn; eauto; contradiction.
  - destruct (p_authorizationUrl p) as [[?|]|]; cbn; eauto; contradiction.
  - destruct (p_authServerUrl p) as [[?|]|]; cbn; eauto; contradiction.
Qed.

(** ** The calls of a run *)

Lemma execute_script step context w w' c :
  execute (oauthTransitions env step) context w = (w', c) ->
  exists cs,
    calls w' = calls w ++ cs
    /\ map callee cs `prefix_of` script step
    /\ (c = Normal tt -> map callee cs = script step).
Proof.
  intros Hrun.
  destruct step; cbn [oauthTransitions execute] in Hrun;
    unfold_table; unfold_provider; unfold_monad; cbn in Hrun.
  all: split_run Hrun.
  all: injection Hrun as <- <-; cbn [calls].
  all: rewrite <- ?app_assoc; cbn [app].
  all: try (eexists; split; [reflexivity|];
            split; [eexists; reflexivity|]; first [discriminate|reflexivity]).
  all: exists []; rewrite app_nil_r; split; [reflexivity|];
    split; [eexists; reflexivity|]; first [discriminate|reflexivity].
Qed.

(** X14. The driver does not retry and does not call out of turn: the SDK
    calls of a run are a prefix of the step's script (for
    [metadata_discovery]: resource metadata, server metadata,
    validation; one function for the three other networked steps; none
    for [authorization_code] and [complete]), and a run that succeeds has
    gone through the whole script, each function called once. *)
Theorem calls_follow_the_script url st w w' c :
  executeStep env url st w = (w', c) ->
  exists cs,
    calls w' = calls w ++ cs
    /\ map callee cs `prefix_of` script (oauthStep st)
    /\ (c = Normal tt -> map callee cs = script (oauthStep st))
    /\ NoDup (map callee cs).
Proof.
  intros Hrun.
  assert (Hscript : NoDup (script (oauthStep st))).
  { destruct (oauthStep st); cbn; repeat constructor;
      rewrite ?list_elem_of_In; cbn; intuition discriminate. }
  destruct (executeStep_cases _ _ _ _ _ Hrun) as [[-> ->]|Hexec].
  - exists []. rewrite app_nil_r. split; [reflexivity|].
    split; [eexists; reflexivity|]. split; [discriminate|constructor].
  - destruct (execute_script _ _ _ _ _ Hexec) as (cs & Hcalls & Hpre & Hall).
    exists cs. repeat split; try assumption.
    destruct Hpre as [k Hk]. rewrite Hk in Hscript.
    apply NoDup_app in Hscript as [Hnodup _]. exact Hnodup.
Qed.

(** ** Across the redirect *)

(** What each networked step has saved when it succeeds. *)
Lemma execute_success_saves step context w w' :
  execute (oauthTransitions env step) context w = (w', Normal tt) ->
  match step with
  | metadata_discovery =>
      is_Some (serverMetadata (entry (storage w') (serverUrl context)))
  | client_registration =>
      is_Some (clientInfo (entry (storage w') (serverUrl context)))
  | authorization_redirect =>
      is_Some (verifier (entry (storage w') (serverUrl context)))
  | token_request =>
      is_Some (tokens (entry (storage w') (serverUrl context)))
  | authorization_code | complete => True
  end.
Proof.
  intros Hrun.
  destruct step; cbn [oauthTransitions execute] in Hrun;
    unfold_table; unfold_provider; unfold_monad; cbn in Hrun.
  all: split_run Hrun.
  all: inversion Hrun; subst; cbn [storage].
  all: rewrite ?entry_insert; cbn; eauto.
Qed.

Lemma executeStep_success_saves url st w w' :
  executeStep env url st w = (w', Normal tt) ->
  match oauthStep st with
  | metadata_discovery => is_Some (serverMetadata (entry (storage w') url))
  | client_registration => is_Some (clientInfo (entry (storage w') url))
  | authorization_redirect => is_Some (verifier (entry (storage w') url))
  | token_request => is_Some (tokens (entry (storage w') url))
  | authorization_code | complete => True
  end.
Proof.
  intros Hrun.
  destruct (executeStep_cases _ _ _ _ _ Hrun) as [[_ [=]]|Hexec].
  exact (execute_success_saves _ _ _ _ Hexec).
Qed.

Lemma executeStep_keeps url st w w' c :
  executeStep env url st w = (w', c) ->
  (is_Some (serverMetadata (entry (storage w) url)) ->
   is_Some (serverMetadata (entry (storage w') url)))
  /\ (is_Some (clientInfo (entry (storage w) url)) ->
      is_Some (clientInfo (entry (storage w') url)))
  /\ (is_Some (verifier (entry (storage w) url)) ->
      is_Some (verifier (entry (storage w') url))).
Proof.
  intros Hrun.
  destruct (executeStep_cases _ _ _ _ _ Hrun) as [[-> _]|Hexec];
    [tauto|].
  apply execute_storage in Hexec as (_ & _ & Hmd & Hci & Hv & _). tauto.
Qed.

(** X15. The flow survives the reload. Once [metadata_discovery],
    [client_registration] and [authorization_redirect] have succeeded
    for a server, in this order and with whatever else run in between
    left out, the store holds all that [token_request] needs: any state
    with a non-empty code passes its guard, even one that has lost
    [oauthMetadata] and [oauthClientInfo], and a verifier is there to be
    sent. *)
Theorem flow_survives_reload url st0 st1 st2 w0 w1 w2 w3 :
  oauthStep st0 = metadata_discovery ->
  executeStep env url st0 w0 = (w1, Normal tt) ->
  oauthStep st1 = client_registration ->
  executeStep env url st1 w1 = (w2, Normal tt) ->
  oauthStep st2 = authorization_redirect ->
  executeStep env url st2 w2 = (w3, Normal tt) ->
  forall st,
    truthy_string (authorizationCode st) = true ->
    (canTransition (oauthTransitions env token_request)
       {| state := st; serverUrl := url |} w3).2 = Normal true
    /\ is_Some (verifier (entry (storage w3) url)).
Proof.
  intros Hs0 Hrun0 Hs1 Hrun1 Hs2 Hrun2 st Hcode.
  pose proof (executeStep_success_saves _ _ _ _ Hrun0) as Hmd.
  pose proof (executeStep_success_saves _ _ _ _ Hrun1) as Hci.
  pose proof (executeStep_success_saves _ _ _ _ Hrun2) as Hv.
  rewrite Hs0 in Hmd. rewrite Hs1 in Hci. rewrite Hs2 in Hv.
  destruct (executeStep_keeps _ _ _ _ _ Hrun1) as (Hk1 & _ & _).
  destruct (executeStep_keeps _ _ _ _ _ Hrun2) as (Hk2 & Hk2' & _).
  apply Hk1, Hk2 in Hmd. apply Hk2' in Hci.
  split; [|exact Hv].
  rewrite token_request_guard, Hcode. cbn [snd].
  destruct Hmd as [? ->], Hci as [? ->]. reflexivity.
Qed.

(** ** Which steps read what *)

(** X16. Before [token_request] no step reads the store: what a run
    shows, its patches and its completion, is the same whatever has been
    saved, for this server or any other. *)
Theorem early_steps_ignore_the_store url st w σ :
  oauthStep st <> token_request ->
  observable (executeStep env url st w)
  = observable
      (executeStep env url st
         {| storage := σ; updates := updates w; calls := calls w |}).
Proof.
  intros Hstep. apply storage_unobservable; [exact Hstep|reflexivity].
Qed.

(** X17. [token_request] reads nothing of the state but the code: two
    states at [token_request] with the same [authorizationCode] give the
    same run, whatever else they hold in memory. *)
Theorem token_request_reads_only_the_code url st st' w :
  oauthStep st = token_request ->
  oauthStep st' = token_request ->
  authorizationCode st' = authorizationCode st ->
  executeStep env url st' w = executeStep env url st w.
Proof.
  intros Hstep Hstep' Hcode.
  unfold executeStep. rewrite Hstep, Hstep'.
  cbn [oauthTransitions canTransition execute].
  unfold token_request_canTransition, token_request_execute.
  cbn [state serverUrl]. rewrite Hcode. reflexivity.
Qed.

End Coverage.

(** * Properties of the checks on tool results *)

Section ToolResultsChecks.
Context {JsValue : Type}.
Context (JSON_parse : jsstring -> Completion JsValue)
        (JSON_stringify : JsValue -> Completion (option jsstring)).
Context (hasOutputSchema : jsstring -> bool)
        (validateToolOutput :
           jsstring -> JsValue -> ToolResults.ValidationResult).

(** X18. [checkContentCompatibility] reports compatible exactly when the
    unstructured content is one block of type "text" whose text is not
    empty and parses, and the parsed value and the structured content
    serialise to the same thing. *)
Theorem compatible_iff (structuredContent : JsValue)
    (unstructuredContent : list ToolResults.ContentBlock) :
  ToolResults.isCompatible
    (ToolResults.checkContentCompatibility JSON_parse JSON_stringify
       structuredContent unstructuredContent) = true
  <-> exists textContent parsedContent serialised,
        unstructuredContent
        = [{| ToolResults.type := js "text";
              ToolResults.text := Some textContent |}]
        /\ textContent <> []
        /\ JSON_parse textContent = Normal parsedContent
        /\ JSON_stringify parsedContent = Normal serialised
        /\ JSON_stringify structuredContent = Normal serialised.
Proof.
  unfold ToolResults.checkContentCompatibility, ToolResults.isEqual. split.
  - destruct unstructuredContent as [|[ty tx] [|? ?]]; cbn; try discriminate.
    case_bool_decide as Hty; cbn; [|discriminate]. subst ty.
    destruct tx as [[|c s]|]; cbn; try discriminate.
    destruct (JSON_parse (c :: s)) as [parsedContent|] eqn:Hp; cbn;
      [|discriminate].
    destruct (JSON_stringify parsedContent) as [a|] eqn:Ha; cbn;
      [|discriminate].
    destruct (JSON_stringify structuredContent) as [b|] eqn:Hb; cbn;
      [|discriminate].
    case_bool_decide as Hab; cbn; [|discriminate]. subst b. intros _.
    exists (c :: s), parsedContent, a. repeat split; try assumption.
    discriminate.
  - intros (textContent & parsedContent & a & -> & Hne & Hp & Ha & Hb).
    cbn. rewrite bool_decide_eq_true_2 by reflexivity.
    destruct textContent as [|c s]; [contradiction|].
    rewrite Hp, Ha, Hb. rewrite bool_decide_eq_true_2 by reflexivity.
    reflexivity.
Qed.

(** X19. If serialising, parsing and serialising again gives the first
    serialisation back, a result whose one text block is the
    serialisation of its structured content is always reported
    compatible. *)
Theorem serialised_content_is_compatible
    (structuredContent : JsValue) (serialised : jsstring) :
  (forall v s,
     JSON_stringify v = Normal (Some s) ->
     exists v', JSON_parse s = Normal v'
                /\ JSON_stringify v' = Normal (Some s)) ->
  JSON_stringify structuredContent = Normal (Some serialised) ->
  serialised <> [] ->
  ToolResults.checkContentCompatibility JSON_parse JSON_stringify
    structuredContent
    [{| ToolResults.type := js "text";
        ToolResults.text := Some serialised |}]
  = {| ToolResults.isCompatible := true;
       ToolResults.message :=
         js "Unstructured content matches structured content" |}.
Proof.
  intros Hlaw Hs Hne.
  destruct (Hlaw _ _ Hs) as (v' & Hp & Hs').
  unfold ToolResults.checkContentCompatibility, ToolResults.isEqual. cbn.
  rewrite bool_decide_eq_true_2 by reflexivity.
  destruct serialised as [|c s]; [contradiction|].
  rewrite Hp, Hs', Hs. rewrite bool_decide_eq_true_2 by reflexivity.
  reflexivity.
Qed.

(** X20. The component computes a compatibility verdict only together
    with a schema validation of the same structured content: whenever
    [compatibilityResult] is set, a tool with an output schema is
    selected, the result has structured content, [validationResult] is
    what [validateToolOutput] says of it, and the verdict is that of
    [checkContentCompatibility] on the result's content. *)
Theorem compatibility_comes_with_validation
    (selectedTool : option ToolResults.Tool)
    (structuredResult : ToolResults.CallToolResult) verdict :
  ToolResults.compatibilityResult JSON_parse JSON_stringify hasOutputSchema
    selectedTool structuredResult = Some verdict ->
  exists tool structured,
    selectedTool = Some tool
    /\ hasOutputSchema (ToolResults.name tool) = true
    /\ ToolResults.structuredContent structuredResult = Some structured
    /\ ToolResults.validationResult hasOutputSchema validateToolOutput
         selectedTool structuredResult
       = Some (validateToolOutput (ToolResults.name tool) structured)
    /\ verdict
       = ToolResults.checkContentCompatibility JSON_parse JSON_stringify
           structured (ToolResults.content structuredResult).
Proof.
  unfold ToolResults.compatibilityResult, ToolResults.validationResult.
  destruct (ToolResults.structuredContent structuredResult) as [structured|];
    [|discriminate].
  destruct (ToolResults.content structuredResult) as [|block blocks] eqn:Hc;
    [discriminate|].
  destruct selectedTool as [tool|]; [|discriminate].
  destruct (hasOutputSchema (ToolResults.name tool)) eqn:Hschema;
    [|discriminate].
  intros [= <-]. exists tool, structured. repeat split. exact Hschema.
Qed.

End ToolResultsChecks.

(** * The further properties at work on the fixtures *)

Lemma other_servers_untouched_witness :
  Fixtures.other <> Fixtures.target
  /\ storage (executeStep Fixtures.beforeEach Fixtures.target
                Fixtures.EMPTY_DEBUGGER_STATE Fixtures.shared).1
       !! Fixtures.other
     = storage Fixtures.shared !! Fixtures.other.
Proof.
  assert (Hother : Fixtures.other <> Fixtures.target) by (vm_compute; discriminate).
  split; [exact Hother|].
  exact (other_servers_untouched Fixtures.beforeEach Fixtures.target
           Fixtures.EMPTY_DEBUGGER_STATE Fixtures.shared _ _ Fixtures.other
           (surjective_pairing _) Hother).
Defined.

Lemma failed_run_saves_nothing_witness :
  (executeStep Fixtures.nothing_found Fixtures.target
     Fixtures.EMPTY_DEBUGGER_STATE Fixtures.returned).2
  = Throw (ThrownError (new_Error (js "Failed to discover OAuth metadata")))
  /\ storage (executeStep Fixtures.nothing_found Fixtures.target
                Fixtures.EMPTY_DEBUGGER_STATE Fixtures.returned).1
     = storage Fixtures.returned.
Proof.
  assert (Hrun :
    executeStep Fixtures.nothing_found Fixtures.target
      Fixtures.EMPTY_DEBUGGER_STATE Fixtures.returned
    = ((executeStep Fixtures.nothing_found Fixtures.target
          Fixtures.EMPTY_DEBUGGER_STATE Fixtures.returned).1,
       Throw (ThrownError
                (new_Error (js "Failed to discover OAuth metadata")))))
    by (vm_compute; reflexivity).
  split; [rewrite Hrun; reflexivity|].
  exact (proj1 (failed_run_saves_nothing Fixtures.nothing_found
                  Fixtures.target Fixtures.EMPTY_DEBUGGER_STATE
                  Fixtures.returned _ _ Hrun)).
Defined.

Lemma persisted_data_is_kept_witness :
  is_Some (verifier (entry (storage Fixtures.returned) Fixtures.target))
  /\ is_Some (verifier
                (entry
                   (storage (executeStep Fixtures.beforeEach Fixtures.target
                               Fixtures.EMPTY_DEBUGGER_STATE
                               Fixtures.returned).1)
                   Fixtures.target)).
Proof.
  assert (Hsaved :
    is_Some (verifier (entry (storage Fixtures.returned) Fixtures.target)))
    by (eexists; vm_compute; reflexivity).
  split; [exact Hsaved|].
  exact (proj1 (proj2 (proj2
           (persisted_data_is_kept Fixtures.beforeEach Fixtures.target
              Fixtures.EMPTY_DEBUGGER_STATE Fixtures.returned _ _
              (surjective_pairing _)))) Hsaved).
Defined.

Lemma saved_copy_agrees_with_patch_witness :
  Fixtures.discovery_run = (Fixtures.discovery_run.1, Normal tt)
  /\ updates Fixtures.discovery_run.1
     = updates Fixtures.fresh ++ [Fixtures.discovery_patch]
  /\ serverMetadata
       (entry (storage Fixtures.discovery_run.1) Fixtures.target)
     = Some Fixtures.mockOAuthMetadata.
Proof.
  assert (Hrun : Fixtures.discovery_run
                 = (Fixtures.discovery_run.1, Normal tt))
    by (vm_compute; reflexivity).
  assert (Hup : updates Fixtures.discovery_run.1
                = updates Fixtures.fresh ++ [Fixtures.discovery_patch])
    by (vm_compute; reflexivity).
  split; [exact Hrun|]. split; [exact Hup|].
  exact (proj1 (saved_copy_agrees_with_patch Fixtures.beforeEach
                  Fixtures.target Fixtures.EMPTY_DEBUGGER_STATE
                  Fixtures.fresh _ _ Hrun Hup)
           Fixtures.mockOAuthMetadata eq_refl).
Defined.

Lemma named_authorization_server_is_used_witness :
  exists w' p,
    executeStep
      (Fixtures.mock_env (Normal (Some Fixtures.mockResourceMetadata))
         Fixtures.mockOAuthMetadata)
      Fixtures.target Fixtures.EMPTY_DEBUGGER_STATE Fixtures.fresh
    = (w', Normal tt)
    /\ updates w' = [p]
    /\ p_authServerUrl p = Some (Some (js "https://custom-auth.example.com")).
Proof.
  destruct (named_authorization_server_is_used
              (Fixtures.mock_env (Normal (Some Fixtures.mockResourceMetadata))
                 Fixtures.mockOAuthMetadata)
              Fixtures.target Fixtures.EMPTY_DEBUGGER_STATE Fixtures.fresh
              Fixtures.target Fixtures.mockResourceMetadata
              (js "https://custom-auth.example.com") []
              (js "https://custom-auth.example.com")
              Fixtures.mockOAuthMetadata Fixtures.mockOAuthMetadata
              eq_refl eq_refl eq_refl eq_refl eq_refl eq_refl eq_refl)
    as (w' & p & Hrun & _ & Hup & Hurl & _).
  exists w', p. repeat split; assumption.
Defined.

Lemma malformed_authorization_server_is_not_fatal_witness :
  exists w' p,
    executeStep
      (Fixtures.mock_env (Normal (Some Fixtures.resource_with_bad_server))
         Fixtures.mockOAuthMetadata)
      Fixtures.target Fixtures.EMPTY_DEBUGGER_STATE Fixtures.fresh
    = (w', Normal tt)
    /\ updates w' = [p]
    /\ p_authServerUrl p = Some (Some Fixtures.target)
    /\ p_resourceMetadata p = Some (Some Fixtures.resource_with_bad_server)
    /\ p_resourceMetadataError p
       = Some (Some {| name := js "TypeError"; message := js "Invalid URL" |}).
Proof.
  destruct (malformed_authorization_server_is_not_fatal
              (Fixtures.mock_env
                 (Normal (Some Fixtures.resource_with_bad_server))
                 Fixtures.mockOAuthMetadata)
              Fixtures.target Fixtures.EMPTY_DEBUGGER_STATE Fixtures.fresh
              Fixtures.target Fixtures.resource_with_bad_server
              [] [js "https://custom-auth.example.com"]
              (ThrownError {| name := js "TypeError";
                              message := js "Invalid URL" |})
              Fixtures.mockOAuthMetadata Fixtures.mockOAuthMetadata
              eq_refl eq_refl eq_refl eq_refl eq_refl eq_refl eq_refl)
    as (w' & p & Hrun & _ & Hup & Hurl & Hrm & Herr & _).
  exists w', p. repeat split; assumption.
Defined.

Lemma metadata_not_found_is_fatal_witness :
  discoverOAuthMetadata Fixtures.named_server_silent Fixtures.target
  = Normal (Some Fixtures.mockOAuthMetadata)
  /\ exists w',
       executeStep Fixtures.named_server_silent Fixtures.target
         Fixtures.EMPTY_DEBUGGER_STATE Fixtures.fresh
       = (w', Throw (ThrownError
                       (new_Error (js "Failed to discover OAuth metadata"))))
       /\ updates w' = []
       /\ calls w'
          = [discoverOAuthProtectedResourceMetadata_call Fixtures.target;
             discoverOAuthMetadata_call Fixtures.named_server].
Proof.
  split; [reflexivity|].
  destruct (metadata_not_found_is_fatal Fixtures.named_server_silent
              Fixtures.target Fixtures.EMPTY_DEBUGGER_STATE Fixtures.fresh
              Fixtures.target
              {| storage := storage Fixtures.fresh;
                 updates := updates Fixtures.fresh;
                 calls := calls Fixtures.fresh ++
                   [discoverOAuthProtectedResourceMetadata_call
                      Fixtures.target] |}
              (Some Fixtures.mockResourceMetadata, None,
               Fixtures.named_server)
              eq_refl eq_refl eq_refl eq_refl)
    as (w' & Hrun & _ & Hup & Hcalls & _).
  exists w'. repeat split; assumption.
Defined.

Lemma registration_outcome_witness :
  (executeStep Fixtures.beforeEach Fixtures.target
     Fixtures.before_registration Fixtures.fresh).2 = Normal tt
  /\ clientInfo
       (entry
          (storage (executeStep Fixtures.beforeEach Fixtures.target
                      Fixtures.before_registration Fixtures.fresh).1)
          Fixtures.target)
     = Some Fixtures.mockOAuthClientInfo.
Proof.
  destruct (registration_outcome Fixtures.beforeEach Fixtures.target
              Fixtures.before_registration Fixtures.fresh
              Fixtures.metadataWithScopes eq_refl eq_refl)
    as (payload & _ & Hout).
  cbn [registerClient Fixtures.beforeEach Fixtures.mock_env] in Hout.
  destruct Hout as (Hok & Hsaved & _). split; assumption.
Defined.

Lemma redirect_scope_from_server_metadata_witness :
  calls (executeStep Fixtures.beforeEach Fixtures.target
           Fixtures.before_redirect Fixtures.fresh).1
  = [startAuthorization_call Fixtures.target Fixtures.metadataWithScopes
       (Some Fixtures.mockOAuthClientInfo)
       (js "http://localhost:3000/oauth/callback/debug")
       (Some (js "read write admin"))].
Proof.
  exact (proj1 (redirect_scope_from_server_metadata Fixtures.beforeEach
                  Fixtures.target Fixtures.before_redirect Fixtures.fresh
                  Fixtures.metadataWithScopes Fixtures.mockOAuthClientInfo
                  eq_refl eq_refl eq_refl)).
Defined.

Lemma token_request_exchanges_persisted_witness :
  calls (executeStep Fixtures.beforeEach Fixtures.target
           Fixtures.after_reload Fixtures.returned).1
  = [exchangeAuthorization_call Fixtures.target
       (Some Fixtures.mockOAuthMetadata) (Some Fixtures.mockOAuthClientInfo)
       (Some (js "test_code")) (js "test_verifier")
       (js "http://localhost:3000/oauth/callback/debug")]
  /\ (executeStep Fixtures.beforeEach Fixtures.target
        Fixtures.after_reload Fixtures.returned).2 = Normal tt.
Proof.
  assert (Hmd : serverMetadata (entry (storage Fixtures.returned)
                                  Fixtures.target)
                = Some Fixtures.mockOAuthMetadata)
    by (vm_compute; reflexivity).
  assert (Hci : clientInfo (entry (storage Fixtures.returned) Fixtures.target)
                = Some Fixtures.mockOAuthClientInfo)
    by (vm_compute; reflexivity).
  assert (Hv : verifier (entry (storage Fixtures.returned) Fixtures.target)
               = Some (js "test_verifier"))
    by (vm_compute; reflexivity).
  destruct (token_request_exchanges_persisted Fixtures.beforeEach
              Fixtures.target Fixtures.after_reload Fixtures.returned
              _ _ _ eq_refl eq_refl Hmd Hci Hv) as (Hcalls & Hout).
  cbn [exchangeAuthorization Fixtures.beforeEach Fixtures.mock_env] in Hout.
  split; [exact Hcalls|exact (proj1 Hout)].
Defined.

Lemma missing_verifier_stops_token_request_witness :
  executeStep Fixtures.beforeEach Fixtures.target Fixtures.after_reload
    Fixtures.no_verifier
  = (Fixtures.no_verifier,
     Throw (ThrownError (new_Error (js "No code verifier saved for session")))).
Proof.
  apply (missing_verifier_stops_token_request Fixtures.beforeEach
           Fixtures.target Fixtures.after_reload Fixtures.no_verifier).
  - reflexivity.
  - vm_compute. reflexivity.
  - vm_compute. reflexivity.
  - reflexivity.
Defined.

Lemma operator_fields_untouched_witness :
  updates Fixtures.blank_code_run.1
  = updates Fixtures.returned ++ updates Fixtures.blank_code_run.1
  /\ authorizationCode
       (applyPatches (Fixtures.at_step authorization_code "   ")
          (updates Fixtures.blank_code_run.1))
     = Some (js "   ").
Proof.
  assert (Hup : updates Fixtures.blank_code_run.1
                = updates Fixtures.returned
                  ++ updates Fixtures.blank_code_run.1) by reflexivity.
  split; [exact Hup|].
  exact (proj1 (operator_fields_untouched Fixtures.beforeEach Fixtures.target
                  (Fixtures.at_step authorization_code "   ")
                  Fixtures.returned _ _ _ (surjective_pairing _) Hup)).
Defined.

Lemma artifacts_are_never_cleared_witness :
  is_Some (oauthMetadata Fixtures.before_registration)
  /\ is_Some (oauthMetadata
                (applyPatches Fixtures.before_registration
                   (updates
                      (executeStep Fixtures.beforeEach Fixtures.target
                         Fixtures.before_registration Fixtures.fresh).1))).
Proof.
  assert (Hhas : is_Some (oauthMetadata Fixtures.before_registration))
    by (eexists; reflexivity).
  split; [exact Hhas|].
  exact (proj1 (artifacts_are_never_cleared Fixtures.beforeEach
                  Fixtures.target Fixtures.before_registration Fixtures.fresh
                  _ _ _ (surjective_pairing _) eq_refl) Hhas).
Defined.

Lemma calls_follow_the_script_witness :
  exists cs,
    calls Fixtures.discovery_run.1 = calls Fixtures.fresh ++ cs
    /\ map callee cs
       = [discoverOAuthProtectedResourceMetadata_fn; discoverOAuthMetadata_fn;
          parseAsync_fn].
Proof.
  assert (Hrun : Fixtures.discovery_run
                 = (Fixtures.discovery_run.1, Normal tt))
    by (vm_compute; reflexivity).
  destruct (calls_follow_the_script Fixtures.beforeEach Fixtures.target
              Fixtures.EMPTY_DEBUGGER_STATE Fixtures.fresh _ _ Hrun)
    as (cs & Hcalls & _ & Hall & _).
  exists cs. split; [exact Hcalls|exact (Hall eq_refl)].
Defined.

Lemma flow_survives_reload_witness :
  (Fixtures.discovery_run = (Fixtures.discovery_run.1, Normal tt)
   /\ Fixtures.registration_run = (Fixtures.registration_run.1, Normal tt)
   /\ Fixtures.redirect_run = (Fixtures.redirect_run.1, Normal tt))
  /\ (canTransition (oauthTransitions Fixtures.beforeEach token_request)
        {| state := Fixtures.after_reload; serverUrl := Fixtures.target |}
        Fixtures.redirect_run.1).2 = Normal true.
Proof.
  assert (Hrun0 : Fixtures.discovery_run
                  = (Fixtures.discovery_run.1, Normal tt))
    by (vm_compute; reflexivity).
  assert (Hrun1 : Fixtures.registration_run
                  = (Fixtures.registration_run.1, Normal tt))
    by (vm_compute; reflexivity).
  assert (Hrun2 : Fixtures.redirect_run
                  = (Fixtures.redirect_run.1, Normal tt))
    by (vm_compute; reflexivity).
  split; [repeat split; assumption|].
  exact (proj1 (flow_survives_reload Fixtures.beforeEach Fixtures.target
                  Fixtures.EMPTY_DEBUGGER_STATE Fixtures.before_registration
                  Fixtures.before_redirect Fixtures.fresh _ _ _
                  eq_refl Hrun0 eq_refl Hrun1 eq_refl Hrun2
                  Fixtures.after_reload eq_refl)).
Defined.

Lemma early_steps_ignore_the_store_witness :
  oauthStep Fixtures.before_registration <> token_request
  /\ observable (executeStep Fixtures.beforeEach Fixtures.target
                   Fixtures.before_registration Fixtures.fresh)
     = observable
         (executeStep Fixtures.beforeEach Fixtures.target
            Fixtures.before_registration
            {| storage := storage Fixtures.shared;
               updates := updates Fixtures.fresh;
               calls := calls Fixtures.fresh |}).
Proof.
  assert (Hstep : oauthStep Fixtures.before_registration <> token_request)
    by discriminate.
  split; [exact Hstep|].
  exact (early_steps_ignore_the_store Fixtures.beforeEach Fixtures.target
           Fixtures.before_registration Fixtures.fresh
           (storage Fixtures.shared) Hstep).
Defined.

Lemma token_request_reads_only_the_code_witness :
  executeStep Fixtures.beforeEach Fixtures.target
    (Fixtures.in_memory (Some Fixtures.metadataWithScopes)
       (Some (js "other_client_id")) Fixtures.after_reload)
    Fixtures.returned
  = executeStep Fixtures.beforeEach Fixtures.target Fixtures.after_reload
      Fixtures.returned.
Proof.
  exact (token_request_reads_only_the_code Fixtures.beforeEach Fixtures.target
           Fixtures.after_reload
           (Fixtures.in_memory (Some Fixtures.metadataWithScopes)
              (Some (js "other_client_id")) Fixtures.after_reload)
           Fixtures.returned eq_refl eq_refl eq_refl).
Defined.

Lemma serialised_content_is_compatible_witness :
  ToolResults.isCompatible
    (ToolResults.checkContentCompatibility ToolFixtures.JSON_parse
       ToolFixtures.JSON_stringify true
       [{| ToolResults.type := js "text";
           ToolResults.text := Some (js "true") |}])
  = true.
Proof.
  rewrite (serialised_content_is_compatible ToolFixtures.JSON_parse
             ToolFixtures.JSON_stringify true (js "true")).
  - reflexivity.
  - intros v s [= <-]. exists v. destruct v; split; reflexivity.
  - reflexivity.
  - discriminate.
Defined.

Lemma compatibility_comes_with_validation_witness :
  ToolResults.compatibilityResult ToolFixtures.JSON_parse
    ToolFixtures.JSON_stringify ToolFixtures.hasOutputSchema
    (Some ToolFixtures.is_even) ToolFixtures.answer
  = Some {| ToolResults.isCompatible := true;
            ToolResults.message :=
              js "Unstructured content matches structured content" |}
  /\ ToolResults.validationResult ToolFixtures.hasOutputSchema
       ToolFixtures.validateToolOutput (Some ToolFixtures.is_even)
       ToolFixtures.answer
     = Some {| ToolResults.isValid := true; ToolResults.error := None |}.
Proof.
  assert (Hcompat :
    ToolResults.compatibilityResult ToolFixtures.JSON_parse
      ToolFixtures.JSON_stringify ToolFixtures.hasOutputSchema
      (Some ToolFixtures.is_even) ToolFixtures.answer
    = Some {| ToolResults.isCompatible := true;
              ToolResults.message :=
                js "Unstructured content matches structured content" |})
    by (vm_compute; reflexivity).
  split; [exact Hcompat|].
  destruct (compatibility_comes_with_validation ToolFixtures.JSON_parse
              ToolFixtures.JSON_stringify ToolFixtures.hasOutputSchema
              ToolFixtures.validateToolOutput (Some ToolFixtures.is_even)
              ToolFixtures.answer _ Hcompat)
    as (tool & structured & _ & _ & _ & Hvalid & _).
  exact Hvalid.
Defined.

(** A text that is not JSON, two blocks, and no text at all. *)
Example incompatible_contents :
  map (fun blocks =>
         ToolResults.message
           (ToolResults.checkContentCompatibility ToolFixtures.JSON_parse
              ToolFixtures.JSON_stringify true blocks))
    [ [{| ToolResults.type := js "text";
          ToolResults.text := Some (js "yes") |}];
      [{| ToolResults.type := js "text";
          ToolResults.text := Some (js "false") |}];
      [{| ToolResults.type := js "text"; ToolResults.text := Some [] |}];
      [{| ToolResults.type := js "image"; ToolResults.text := None |}];
      [] ]
  = [ js "Unstructured content is not valid JSON";
      js "Parsed JSON does not match structured content";
      js "Text content is empty";
      js "Unstructured content is not a single text block";
      js "Unstructured content is not a single text block" ].
Proof. vm_compute. reflexivity. Qed.
